(** * Input core of the controller firmware: a shallow embedding of
      [src/input/input.cpp] and the properties of its pipeline.

    The file has two parts.  The first one translates the C++ source,
    function by function, keeping its names.  The second one states and
    proves the properties of the port cache, the raw state reader, the
    debounce filter, the stick synthesizer and the lock gate. *)

From Stdlib Require Import ZArith Lia Bool String.
From stdpp Require Import base list.

Local Open Scope Z_scope.

(* ===================================================================== *)
(** * Part 1: the embedding                                               *)
(* ===================================================================== *)

(** ** Machine integers

    [uint64_t] values are integers in [0, 2^64); subtraction wraps. *)

Definition uint64_max : Z := 2 ^ 64 - 1.

Definition to_uint64 (z : Z) : Z := z mod 2 ^ 64.

Definition uint64_sub (a b : Z) : Z := (a - b) mod 2 ^ 64.

Definition uint8_incr (a : Z) : Z := (a + 1) mod 2 ^ 8.

(** ** Debounce engine *)

(** [struct ButtonHistory]: the accepted value and the tick on which the
    line entered it. *)
Record ButtonHistory : Type := mkButtonHistory {
  state : bool;
  tick : Z
}.

(** Objects with static storage are zero-initialised. *)
Definition ButtonHistory_zero : ButtonHistory :=
  {| state := false; tick := 0 |}.

(** [input_debounce(current_state, button_history, current_tick)].
    The history is passed by pointer in the source; here the function
    returns the value to use together with the history it leaves behind.
    [transition_time] stands for the constant
    [k_ms_to_cyc_ceil64(5)], whose value depends on the clock of the
    board. *)
Definition input_debounce (transition_time : Z) (current_state : bool)
    (button_history : ButtonHistory) (current_tick : Z)
  : bool * ButtonHistory :=
  if Bool.eqb current_state (state button_history) then
    (current_state, button_history)
  else
    let duration_ticks := uint64_sub current_tick (tick button_history) in
    if duration_ticks <? transition_time then
      (negb current_state, button_history)
    else
      (current_state, {| state := current_state; tick := current_tick |}).

(** *** One line observed over several polls

    A sample is the raw value of the line together with the tick of the
    poll that read it. *)
Definition Sample : Type := bool * Z.

(** The values handed to the rest of the pipeline, poll after poll. *)
Fixpoint debounce_run (transition_time : Z) (h : ButtonHistory)
    (samples : list Sample) : list bool :=
  match samples with
  | [] => []
  | (v, t) :: rest =>
      let r := input_debounce transition_time v h t in
      fst r :: debounce_run transition_time (snd r) rest
  end.

(** The history left after the last sample. *)
Fixpoint debounce_final (transition_time : Z) (h : ButtonHistory)
    (samples : list Sample) : ButtonHistory :=
  match samples with
  | [] => h
  | (v, t) :: rest =>
      debounce_final transition_time
        (snd (input_debounce transition_time v h t)) rest
  end.

(** The ticks on which the accepted value changed. *)
Fixpoint accepted_changes (transition_time : Z) (h : ButtonHistory)
    (samples : list Sample) : list Z :=
  match samples with
  | [] => []
  | (v, t) :: rest =>
      let h' := snd (input_debounce transition_time v h t) in
      if Bool.eqb (state h') (state h) then
        accepted_changes transition_time h' rest
      else
        t :: accepted_changes transition_time h' rest
  end.

(** Ticks never go back, starting from [last], and stay below 2^64. *)
Fixpoint ticks_nondecreasing (last : Z) (samples : list Sample) : bool :=
  match samples with
  | [] => true
  | (_, t) :: rest =>
      (last <=? t) && (t <=? uint64_max) && ticks_nondecreasing t rest
  end.

(** Every sample flips the raw value of the one before it, less than
    [dwell] ticks later. *)
Fixpoint toggles_faster_than (dwell : Z) (samples : list Sample) : bool :=
  match samples with
  | (v1, t1) :: (((v2, t2) :: _) as rest) =>
      Bool.eqb v2 (negb v1) && (t2 - t1 <? dwell)
      && toggles_faster_than dwell rest
  | _ => true
  end.

(** Every sample is taken less than [dwell] ticks after [since]. *)
Definition within_dwell (dwell since : Z) (samples : list Sample) : bool :=
  forallb (fun s : Sample => snd s - since <? dwell) samples.

(** Number of the ticks of [l] that fall in the window [[w, w + dwell)]. *)
Definition changes_in_window (dwell w : Z) (l : list Z) : nat :=
  length (filter (fun t => w <= t < w + dwell) l).

(** Consecutive ticks of [l] are at least [dwell] apart, the first one
    at least [dwell] after [last]. *)
Fixpoint separated (dwell last : Z) (l : list Z) : Prop :=
  match l with
  | [] => True
  | t :: rest => last + dwell <= t /\ separated dwell t rest
  end.

(** ** Outcomes *)

(** Modelled from the spec: the macro [PANIC] comes from [panic.h], which
    is not part of the sources at hand.  A panic is fatal: it halts the
    process, and the function that panics hands nothing back to its
    caller, neither a value nor an error code. *)
Inductive outcome (A : Type) : Type :=
  | Returned (a : A)
  | Panicked (msg : string).

Arguments Returned {A} a.
Arguments Panicked {A} msg.

(** Sequencing: a panic skips whatever follows.  With these instances
    [x ← o; k] reads as the statements of the source in order. *)
#[global] Instance outcome_ret : MRet outcome := fun A a => Returned a.

#[global] Instance outcome_bind : MBind outcome := fun A B k o =>
  match o with
  | Returned a => k a
  | Panicked msg => Panicked msg
  end.

(** ** Logical input lines

    The names the source gives to the lines: the fields of
    [RawInputState] it reads, and the output modes, whose enumerators
    double as field names in [PL_GPIO_OUTPUT_MODES()]. *)
Module Line.

Inductive t : Type :=
  | button_north
  | button_east
  | button_south
  | button_west
  | button_l1
  | button_l2
  | button_l3
  | button_r1
  | button_r2
  | button_r3
  | button_touchpad
  | button_select
  | button_start
  | button_home
  | stick_up
  | stick_down
  | stick_right
  | stick_left
  | mode_lock
  | mode_dpad
  | mode_ls
  | mode_rs.

#[global] Instance eq_dec : EqDecision t.
Proof. solve_decision. Defined.

End Line.

(** A structure with one member per line name.  [RawInputState]
    (declared in [input/input.h]) is such a structure of booleans and
    [button_history] such a structure of [ButtonHistory]; a member whose
    line is not listed in [PL_GPIOS()] is never touched by the
    macro-generated code. *)
Module PerLine.

Record t (A : Type) : Type := mk {
    button_north : A;
    button_east : A;
    button_south : A;
    button_west : A;
    button_l1 : A;
    button_l2 : A;
    button_l3 : A;
    button_r1 : A;
    button_r2 : A;
    button_r3 : A;
    button_touchpad : A;
    button_select : A;
    button_start : A;
    button_home : A;
    stick_up : A;
    stick_down : A;
    stick_right : A;
    stick_left : A;
    mode_lock : A;
    mode_dpad : A;
    mode_ls : A;
    mode_rs : A
}.

Arguments button_north {A} r : rename.
Arguments button_east {A} r : rename.
Arguments button_south {A} r : rename.
Arguments button_west {A} r : rename.
Arguments button_l1 {A} r : rename.
Arguments button_l2 {A} r : rename.
Arguments button_l3 {A} r : rename.
Arguments button_r1 {A} r : rename.
Arguments button_r2 {A} r : rename.
Arguments button_r3 {A} r : rename.
Arguments button_touchpad {A} r : rename.
Arguments button_select {A} r : rename.
Arguments button_start {A} r : rename.
Arguments button_home {A} r : rename.
Arguments stick_up {A} r : rename.
Arguments stick_down {A} r : rename.
Arguments stick_right {A} r : rename.
Arguments stick_left {A} r : rename.
Arguments mode_lock {A} r : rename.
Arguments mode_dpad {A} r : rename.
Arguments mode_ls {A} r : rename.
Arguments mode_rs {A} r : rename.
Arguments mk {A}.

(** [s.name], the name being given as a value. *)
Definition get {A : Type} (name : Line.t) (r : t A) : A :=
    match name with
    | Line.button_north => button_north r
    | Line.button_east => button_east r
    | Line.button_south => button_south r
    | Line.button_west => button_west r
    | Line.button_l1 => button_l1 r
    | Line.button_l2 => button_l2 r
    | Line.button_l3 => button_l3 r
    | Line.button_r1 => button_r1 r
    | Line.button_r2 => button_r2 r
    | Line.button_r3 => button_r3 r
    | Line.button_touchpad => button_touchpad r
    | Line.button_select => button_select r
    | Line.button_start => button_start r
    | Line.button_home => button_home r
    | Line.stick_up => stick_up r
    | Line.stick_down => stick_down r
    | Line.stick_right => stick_right r
    | Line.stick_left => stick_left r
    | Line.mode_lock => mode_lock r
    | Line.mode_dpad => mode_dpad r
    | Line.mode_ls => mode_ls r
    | Line.mode_rs => mode_rs r
    end.

Definition build {A : Type} (f : Line.t -> A) : t A :=
    {| button_north := f Line.button_north;
       button_east := f Line.button_east;
       button_south := f Line.button_south;
       button_west := f Line.button_west;
       button_l1 := f Line.button_l1;
       button_l2 := f Line.button_l2;
       button_l3 := f Line.button_l3;
       button_r1 := f Line.button_r1;
       button_r2 := f Line.button_r2;
       button_r3 := f Line.button_r3;
       button_touchpad := f Line.button_touchpad;
       button_select := f Line.button_select;
       button_start := f Line.button_start;
       button_home := f Line.button_home;
       stick_up := f Line.stick_up;
       stick_down := f Line.stick_down;
       stick_right := f Line.stick_right;
       stick_left := f Line.stick_left;
       mode_lock := f Line.mode_lock;
       mode_dpad := f Line.mode_dpad;
       mode_ls := f Line.mode_ls;
       mode_rs := f Line.mode_rs |}.

(** [s.name = v]. *)
Definition set {A : Type} (name : Line.t) (v : A) (r : t A) : t A :=
  build (fun l => if decide (l = name) then v else get l r).

End PerLine.

Definition RawInputState : Type := PerLine.t bool.

(** [memset] of the whole structure to zero. *)
Definition RawInputState_zero : RawInputState := PerLine.build (fun _ => false).

(** ** Port cache *)

(** A [const struct device*] is an address; [NULL] is the null pointer. *)
Definition NULL : Z := 0.

Definition GPIO_PORT_COUNT : Z := 4.

(** [gpio_devices] and [gpio_device_count]. *)
Record PortCache : Type := mkPortCache {
  gpio_devices : list Z;
  gpio_device_count : Z
}.

(** The cache at start-up: static storage, zero-initialised. *)
Definition PortCache_zero : PortCache :=
  {| gpio_devices := replicate (Z.to_nat GPIO_PORT_COUNT) NULL;
     gpio_device_count := 0 |}.

(** The loop [for (i = 0; i < GPIO_PORT_COUNT; ++i)] of
    [gpio_device_add], entered at [i] with [remaining] iterations left:
    the first slot that holds [device], if there is one. *)
Fixpoint gpio_device_scan (device : Z) (devices : list Z) (i : Z)
    (remaining : nat) : option Z :=
  match remaining with
  | O => None
  | S n =>
      if decide (devices !! Z.to_nat i = Some device) then Some i
      else gpio_device_scan device devices (i + 1) n
  end.

(** [gpio_device_add(device)]: the index of the device in the cache.
    The store [gpio_devices[i] = device] is in range, [i] being below
    [GPIO_PORT_COUNT] once the full cache has panicked. *)
Definition gpio_device_add (device : Z) (s : PortCache)
  : outcome (Z * PortCache) :=
  match gpio_device_scan device (gpio_devices s) 0
          (Z.to_nat GPIO_PORT_COUNT) with
  | Some i => Returned (i, s)
  | None =>
      if gpio_device_count s =? GPIO_PORT_COUNT then
        Panicked "ran out of cached GPIO device slots"
      else
        let i := gpio_device_count s in
        Returned (i, {| gpio_devices := <[Z.to_nat i := device]> (gpio_devices s);
                        gpio_device_count := uint8_incr (gpio_device_count s) |})
  end.

(** Registrations one after the other, as [input_gpio_init] issues
    them. *)
Fixpoint gpio_device_add_all (devices : list Z) (s : PortCache)
  : outcome PortCache :=
  match devices with
  | [] => Returned s
  | d :: rest =>
      r ← gpio_device_add d s;
      gpio_device_add_all rest (snd r)
  end.

(** The device is cached below [gpio_device_count]. *)
Definition cached (device : Z) (s : PortCache) : Prop :=
  exists i : nat,
    Z.of_nat i < gpio_device_count s /\
    gpio_devices s !! i = Some device.

(** The shape of the cache between two registrations: four slots, the
    first [gpio_device_count] of them hold pairwise different devices,
    the others are still null. *)
Record cache_wf (s : PortCache) : Prop := mk_cache_wf {
  wf_length : length (gpio_devices s) = Z.to_nat GPIO_PORT_COUNT;
  wf_count : 0 <= gpio_device_count s <= GPIO_PORT_COUNT;
  wf_used : forall (i : nat) (d : Z),
    Z.of_nat i < gpio_device_count s ->
    gpio_devices s !! i = Some d -> d <> NULL;
  wf_free : forall (i : nat) (d : Z),
    gpio_device_count s <= Z.of_nat i ->
    gpio_devices s !! i = Some d -> d = NULL;
  wf_distinct : forall (i j : nat) (d : Z),
    Z.of_nat i < gpio_device_count s ->
    Z.of_nat j < gpio_device_count s ->
    gpio_devices s !! i = Some d ->
    gpio_devices s !! j = Some d -> i = j
}.

(** ** Normalized state *)

(** [enum class StickState]: the eight directions and the rest
    position. *)
Module StickState.

Inductive t : Type :=
  | North | NorthEast | East | SouthEast
  | South | SouthWest | West | NorthWest
  | Neutral.

End StickState.

(** [enum class OutputMode], local to [input_parse]. *)
Module OutputMode.

Inductive t : Type :=
  | mode_dpad
  | mode_ls
  | mode_rs.

#[global] Instance eq_dec : EqDecision t.
Proof. solve_decision. Defined.

(** The member of [RawInputState] that bears the name of the mode:
    [in->mode] in the expansion of [PL_GPIO_OUTPUT_MODES()]. *)
Definition line (m : t) : Line.t :=
  match m with
  | mode_dpad => Line.mode_dpad
  | mode_ls => Line.mode_ls
  | mode_rs => Line.mode_rs
  end.

End OutputMode.

(** [struct InputState], with the members [input_parse] assigns.  The
    sticks are [uint8_t]. *)
Module InputState.

Record t (TouchpadData : Type) : Type := mk {
  touchpad_data : TouchpadData;
  button_north : bool;
  button_east : bool;
  button_south : bool;
  button_west : bool;
  button_l1 : bool;
  button_l2 : bool;
  button_l3 : bool;
  button_r1 : bool;
  button_r2 : bool;
  button_r3 : bool;
  button_touchpad : bool;
  button_select : bool;
  button_start : bool;
  button_home : bool;
  dpad : StickState.t;
  left_stick_x : Z;
  left_stick_y : Z;
  right_stick_x : Z;
  right_stick_y : Z
}.

Arguments mk {TouchpadData}.
Arguments touchpad_data {TouchpadData} _.
Arguments button_north {TouchpadData} _.
Arguments button_east {TouchpadData} _.
Arguments button_south {TouchpadData} _.
Arguments button_west {TouchpadData} _.
Arguments button_l1 {TouchpadData} _.
Arguments button_l2 {TouchpadData} _.
Arguments button_l3 {TouchpadData} _.
Arguments button_r1 {TouchpadData} _.
Arguments button_r2 {TouchpadData} _.
Arguments button_r3 {TouchpadData} _.
Arguments button_touchpad {TouchpadData} _.
Arguments button_select {TouchpadData} _.
Arguments button_start {TouchpadData} _.
Arguments button_home {TouchpadData} _.
Arguments dpad {TouchpadData} _.
Arguments left_stick_x {TouchpadData} _.
Arguments left_stick_y {TouchpadData} _.
Arguments right_stick_x {TouchpadData} _.
Arguments right_stick_y {TouchpadData} _.

End InputState.

(** The objects with static storage that [input_parse] reads and
    writes: [touchpad_data], [button_history], [input_locked]; and the
    calls made to [display_set_locked], latest last. *)
Record Globals (TouchpadData : Type) : Type := mkGlobals {
  touchpad_data : TouchpadData;
  button_history : PerLine.t ButtonHistory;
  input_locked : bool;
  display_locked_calls : list bool
}.

Arguments mkGlobals {TouchpadData}.
Arguments touchpad_data {TouchpadData} _.
Arguments button_history {TouchpadData} _.
Arguments input_locked {TouchpadData} _.
Arguments display_locked_calls {TouchpadData} _.

(** ** Stick synthesizer *)

(** [stick_state_from_x_y(horizontal, vertical)]. *)
Definition stick_state_from_x_y (horizontal vertical : Z) : StickState.t :=
  if (vertical =? -1) && (horizontal =? 0) then StickState.North
  else if (vertical =? -1) && (horizontal =? 1) then StickState.NorthEast
  else if (vertical =? 0) && (horizontal =? 1) then StickState.East
  else if (vertical =? 1) && (horizontal =? 1) then StickState.SouthEast
  else if (vertical =? 1) && (horizontal =? 0) then StickState.South
  else if (vertical =? 1) && (horizontal =? -1) then StickState.SouthWest
  else if (vertical =? 0) && (horizontal =? -1) then StickState.West
  else if (vertical =? -1) && (horizontal =? -1) then StickState.NorthWest
  else StickState.Neutral.

(** [stick_scale(sign)]. *)
Definition stick_scale (sign : Z) : Z :=
  if sign <? 0 then 0x00
  else if sign =? 0 then 0x80
  else 0xFF.

(** The vertical intent of [input_parse]: positive means down. *)
Definition stick_vertical_of (in_ : RawInputState) : Z :=
  let stick_vertical := 0 in
  let stick_vertical :=
    if PerLine.stick_up in_ then stick_vertical - 1 else stick_vertical in
  let stick_vertical :=
    if PerLine.stick_down in_ then stick_vertical + 1 else stick_vertical in
  stick_vertical.

(** The horizontal intent of [input_parse]. *)
Definition stick_horizontal_of (in_ : RawInputState) : Z :=
  let stick_horizontal := 0 in
  let stick_horizontal :=
    if PerLine.stick_right in_ then stick_horizontal + 1 else stick_horizontal in
  let stick_horizontal :=
    if PerLine.stick_left in_ then stick_horizontal - 1 else stick_horizontal in
  stick_horizontal.

(** The chain [if (false) {} else if (in->mode) { output_mode = mode; }
    ...] over the modes listed by [PL_GPIO_OUTPUT_MODES()];
    [output_mode] is the value the variable holds before the chain. *)
Fixpoint select_output_mode (modes : list (Z * OutputMode.t))
    (in_ : RawInputState) (output_mode : OutputMode.t) : OutputMode.t :=
  match modes with
  | [] => output_mode
  | entry :: rest =>
      if PerLine.get (OutputMode.line (snd entry)) in_ then snd entry
      else select_output_mode rest in_ output_mode
  end.

(** ** Raw state reader *)

(** [GPIO_ACTIVE_LOW] of the Zephyr device tree bindings. *)
Definition GPIO_ACTIVE_LOW : Z := 1.

Section Firmware.

(** The board: for each line its pin and its flags, and the lines
    listed by [PL_GPIOS()] with their indices.  [PL_GPIO_COUNT] is the
    number of entries of the array [gpio_indices]. *)
Variable PL_GPIOS : list (Z * Line.t).
Variable PL_GPIO_COUNT : Z.
Variable PL_GPIO_PIN : Line.t -> Z.
Variable PL_GPIO_FLAGS : Line.t -> Z.

(** The drivers: [device_get_binding] on the label of a line,
    [gpio_pin_configure] on the device, pin and flags of a line (its
    return code), and [gpio_port_get_raw] on a device (its return code
    and the word it stores). *)
Variable device_get_binding : Line.t -> Z.
Variable gpio_pin_configure : Z -> Line.t -> Z.
Variable gpio_port_get_raw : Z -> Z * Z.

(** What [input_queue_get_state()] hands out on this poll; [None] also
    stands for a build without [CONFIG_PASSINGLINK_INPUT_QUEUE]. *)
Variable input_queue_get_state : option RawInputState.

(** The store [gpio_indices[index] = device_offset].  An index outside
    the [PL_GPIO_COUNT] entries of the array is undefined in the source;
    here such a store leaves the array as it is, and the properties of
    start-up are stated for indices inside the array. *)
Definition gpio_indices_store (index device_offset : Z)
    (gpio_indices : list Z) : list Z :=
  if (0 <=? index) && (index <? PL_GPIO_COUNT) then
    <[Z.to_nat index := device_offset]> gpio_indices
  else
    gpio_indices.

(** One expansion of [PL_GPIO(index, name)] in [input_gpio_init]. *)
Definition input_gpio_init_line (acc : PortCache * list Z)
    (entry : Z * Line.t) : outcome (PortCache * list Z) :=
  let device := device_get_binding (snd entry) in
  if device =? NULL then
    Panicked "failed to find gpio device"
  else if negb (gpio_pin_configure device (snd entry) =? 0) then
    Panicked "failed to configure gpio pin"
  else
    r ← gpio_device_add device (fst acc);
    mret (snd r, gpio_indices_store (fst entry) (fst r) (snd acc)).

Fixpoint input_gpio_init_lines (entries : list (Z * Line.t))
    (acc : PortCache * list Z) : outcome (PortCache * list Z) :=
  match entries with
  | [] => Returned acc
  | e :: rest =>
      acc' ← input_gpio_init_line acc e;
      input_gpio_init_lines rest acc'
  end.

(** [input_gpio_init()]: the cache and [gpio_indices] it leaves.
    Both start zero-initialised, [gpio_indices] with [PL_GPIO_COUNT]
    entries. *)
Definition input_gpio_init : outcome (PortCache * list Z) :=
  input_gpio_init_lines PL_GPIOS
    (PortCache_zero, replicate (Z.to_nat PL_GPIO_COUNT) 0).

(** The loop [for (i = 0; i < gpio_device_count; ++i)] of
    [input_get_raw_state], entered at [i]: one batched read per cached
    port, a fault on any of them panics. *)
Fixpoint gpio_read_ports (s : PortCache) (i : Z) (remaining : nat)
    (port_values : list Z) : outcome (list Z) :=
  match remaining with
  | O => Returned port_values
  | S n =>
      let r := gpio_port_get_raw (default NULL (gpio_devices s !! Z.to_nat i)) in
      if negb (fst r =? 0) then
        Panicked "failed to get gpio values"
      else
        gpio_read_ports s (i + 1) n (<[Z.to_nat i := snd r]> port_values)
  end.

(** One expansion of [PL_GPIO(index, name)] in [input_get_raw_state]. *)
Definition input_read_line (gpio_indices port_values : list Z)
    (out : RawInputState) (entry : Z * Line.t) : RawInputState :=
  let device_index := default 0 (gpio_indices !! Z.to_nat (fst entry)) in
  let word := default 0 (port_values !! Z.to_nat device_index) in
  let value :=
    negb (Z.land word (Z.shiftl 1 (PL_GPIO_PIN (snd entry)) mod 2 ^ 32) =? 0) in
  if negb (Z.land (PL_GPIO_FLAGS (snd entry)) GPIO_ACTIVE_LOW =? 0) then
    PerLine.set (snd entry) (negb value) out
  else
    PerLine.set (snd entry) value out.

(** [input_get_raw_state(out)] of the GPIO build.  [out] and
    [port_values] come in as the caller's stack left them.  The source
    returns [true] on every path that returns, so the result here is
    the snapshot alone. *)
Definition input_get_raw_state (s : PortCache) (gpio_indices : list Z)
    (port_values : list Z) (out : RawInputState) : outcome RawInputState :=
  match input_queue_get_state with
  | Some input => Returned input
  | None =>
      port_values' ←
        gpio_read_ports s 0 (Z.to_nat (gpio_device_count s)) port_values;
      mret (fold_left (input_read_line gpio_indices port_values')
              PL_GPIOS out)
  end.

(** The builds without GPIO: [CONFIG_PASSINGLINK_INPUT_NONE] and
    [CONFIG_PASSINGLINK_INPUT_EXTERNAL], the latter returning the
    state last stored by [input_set_raw_state]. *)
Definition input_get_raw_state_none : outcome RawInputState :=
  match input_queue_get_state with
  | Some input => Returned input
  | None => Returned RawInputState_zero
  end.

Definition input_get_raw_state_external (input_state : RawInputState)
  : outcome RawInputState :=
  match input_queue_get_state with
  | Some input => Returned input
  | None => Returned input_state
  end.

(** ** Lock gate and pipeline *)

Variable TouchpadData : Type.

(** [k_ms_to_cyc_ceil64(5)]. *)
Variable transition_time : Z.

(** The modes listed by [PL_GPIO_OUTPUT_MODES()], in order, and the
    two build switches. *)
Variable PL_GPIO_OUTPUT_MODES : list (Z * OutputMode.t).
Variable PL_GPIO_MODE_LOCK_AVAILABLE : bool.
Variable CONFIG_PASSINGLINK_DISPLAY : bool.

Definition input_get_locked (g : Globals TouchpadData) : bool :=
  input_locked g.

(** [input_set_locked(locked)]. *)
Definition input_set_locked (locked : bool) (g : Globals TouchpadData)
  : Globals TouchpadData :=
  let calls :=
    if CONFIG_PASSINGLINK_DISPLAY
       && negb (Bool.eqb locked (input_locked g))
    then display_locked_calls g ++ [locked]
    else display_locked_calls g in
  {| touchpad_data := touchpad_data g;
     button_history := button_history g;
     input_locked := locked;
     display_locked_calls := calls |}.

(** One expansion of [PL_GPIO(index, name)] in the debounce pass of
    [input_parse]:
    [in->name = input_debounce(in->name, &button_history.name, current_tick)]. *)
Definition input_debounce_line (current_tick : Z)
    (acc : RawInputState * PerLine.t ButtonHistory)
    (entry : Z * Line.t) : RawInputState * PerLine.t ButtonHistory :=
  let r := input_debounce transition_time
             (PerLine.get (snd entry) (fst acc))
             (PerLine.get (snd entry) (snd acc)) current_tick in
  (PerLine.set (snd entry) (fst r) (fst acc),
   PerLine.set (snd entry) (snd r) (snd acc)).

Definition input_debounce_all (current_tick : Z) (in_ : RawInputState)
    (history : PerLine.t ButtonHistory)
  : RawInputState * PerLine.t ButtonHistory :=
  fold_left (input_debounce_line current_tick) PL_GPIOS (in_, history).

(** The snapshot and the globals as [input_parse] has them once the
    debounce pass and the lock update are done. *)
Definition input_parse_debounced (g : Globals TouchpadData)
    (in_ : RawInputState) (k_uptime_ticks : Z)
  : RawInputState * Globals TouchpadData :=
  let current_tick := to_uint64 k_uptime_ticks in
  let d := input_debounce_all current_tick in_ (button_history g) in
  let g1 := {| touchpad_data := touchpad_data g;
               button_history := snd d;
               input_locked := input_locked g;
               display_locked_calls := display_locked_calls g |} in
  let g2 := if PL_GPIO_MODE_LOCK_AVAILABLE
            then input_set_locked (PerLine.mode_lock (fst d)) g1
            else g1 in
  (fst d, g2).

(** The mode [input_parse] switches on. *)
Definition input_parse_output_mode (in_ : RawInputState) : OutputMode.t :=
  select_output_mode PL_GPIO_OUTPUT_MODES in_ OutputMode.mode_dpad.

(** [input_parse(out, in)]: the state written to [out], the snapshot
    left in [in], and the globals.  The pad and the sticks take the
    defaults assigned before the [switch] unless the case of
    [output_mode] assigns them. *)
Definition input_parse (g : Globals TouchpadData) (in_ : RawInputState)
    (k_uptime_ticks : Z)
  : InputState.t TouchpadData * RawInputState * Globals TouchpadData :=
  let d := input_parse_debounced g in_ k_uptime_ticks in
  let in_ := fst d in
  let g := snd d in
  let stick_vertical := stick_vertical_of in_ in
  let stick_horizontal := stick_horizontal_of in_ in
  let output_mode := input_parse_output_mode in_ in
  ({| InputState.touchpad_data := touchpad_data g;
      InputState.button_north := PerLine.button_north in_;
      InputState.button_east := PerLine.button_east in_;
      InputState.button_south := PerLine.button_south in_;
      InputState.button_west := PerLine.button_west in_;
      InputState.button_l1 := PerLine.button_l1 in_;
      InputState.button_l2 := PerLine.button_l2 in_;
      InputState.button_l3 := PerLine.button_l3 in_;
      InputState.button_r1 := PerLine.button_r1 in_;
      InputState.button_r2 := PerLine.button_r2 in_;
      InputState.button_r3 := PerLine.button_r3 in_;
      InputState.button_touchpad := PerLine.button_touchpad in_;
      InputState.button_select := if input_locked g then false else PerLine.button_select in_;
      InputState.button_start := if input_locked g then false else PerLine.button_start in_;
      InputState.button_home := if input_locked g then false else PerLine.button_home in_;
      InputState.dpad :=
        match output_mode with
        | OutputMode.mode_dpad =>
            stick_state_from_x_y stick_horizontal stick_vertical
        | _ => StickState.Neutral
        end;
      InputState.left_stick_x :=
        match output_mode with
        | OutputMode.mode_ls => stick_scale stick_horizontal
        | _ => 128
        end;
      InputState.left_stick_y :=
        match output_mode with
        | OutputMode.mode_ls => stick_scale stick_vertical
        | _ => 128
        end;
      InputState.right_stick_x :=
        match output_mode with
        | OutputMode.mode_rs => stick_scale stick_horizontal
        | _ => 128
        end;
      InputState.right_stick_y :=
        match output_mode with
        | OutputMode.mode_rs => stick_scale stick_vertical
        | _ => 128
        end |},
   in_, g).

(** [input_get_state(out)] of the GPIO build. *)
Definition input_get_state (s : PortCache) (gpio_indices : list Z)
    (port_values : list Z) (input : RawInputState)
    (g : Globals TouchpadData) (k_uptime_ticks : Z)
  : outcome (InputState.t TouchpadData * Globals TouchpadData) :=
  input' ← input_get_raw_state s gpio_indices port_values input;
  let r := input_parse g input' k_uptime_ticks in
  mret (fst (fst r), snd r).

End Firmware.

Arguments input_get_locked {TouchpadData} g.
Arguments input_set_locked {TouchpadData} CONFIG_PASSINGLINK_DISPLAY locked g.
Arguments input_parse_debounced PL_GPIOS {TouchpadData} transition_time
  PL_GPIO_MODE_LOCK_AVAILABLE CONFIG_PASSINGLINK_DISPLAY g in_ k_uptime_ticks.
Arguments input_parse PL_GPIOS {TouchpadData} transition_time
  PL_GPIO_OUTPUT_MODES PL_GPIO_MODE_LOCK_AVAILABLE
  CONFIG_PASSINGLINK_DISPLAY g in_ k_uptime_ticks.
Arguments input_get_state PL_GPIOS PL_GPIO_PIN PL_GPIO_FLAGS
  gpio_port_get_raw input_queue_get_state {TouchpadData} transition_time
  PL_GPIO_OUTPUT_MODES PL_GPIO_MODE_LOCK_AVAILABLE
  CONFIG_PASSINGLINK_DISPLAY s gpio_indices port_values input g
  k_uptime_ticks.

(** ** Start-up wiring *)

(** The line binds to a device and its pin is configured: the two
    checks of [input_gpio_init] pass. *)
Definition line_binds (device_get_binding : Line.t -> Z)
    (gpio_pin_configure : Z -> Line.t -> Z) (entry : Z * Line.t) : Prop :=
  device_get_binding (snd entry) <> NULL /\
  gpio_pin_configure (device_get_binding (snd entry)) (snd entry) = 0.

(** The line's entry of [gpio_indices] names a used slot of the cache
    and the slot holds the line's device. *)
Definition line_wired (device_get_binding : Line.t -> Z) (s : PortCache)
    (gpio_indices : list Z) (entry : Z * Line.t) : Prop :=
  exists device_index : Z,
    gpio_indices !! Z.to_nat (fst entry) = Some device_index /\
    0 <= device_index < gpio_device_count s /\
    gpio_devices s !! Z.to_nat device_index
      = Some (device_get_binding (snd entry)).

(** ** Concrete boards and snapshots

    A board whose lines sit on two ports, with a lock line and the two
    stick modes, and a few snapshots of it. *)

Definition sample_gpios : list (Z * Line.t) :=
  [(0, Line.button_north); (1, Line.button_east); (2, Line.button_south);
   (3, Line.button_west); (4, Line.button_l1); (5, Line.button_l2);
   (6, Line.button_l3); (7, Line.button_r1); (8, Line.button_r2);
   (9, Line.button_r3); (10, Line.button_touchpad);
   (11, Line.button_select); (12, Line.button_start);
   (13, Line.button_home); (14, Line.stick_up); (15, Line.stick_down);
   (16, Line.stick_right); (17, Line.stick_left); (18, Line.mode_lock);
   (19, Line.mode_ls); (20, Line.mode_rs)].

Definition sample_modes : list (Z * OutputMode.t) :=
  [(19, OutputMode.mode_ls); (20, OutputMode.mode_rs)].

(** Every direction held, nothing else. *)
Definition sample_raw_conflict : RawInputState :=
  PerLine.build (fun name =>
    match name with
    | Line.stick_up | Line.stick_down
    | Line.stick_left | Line.stick_right => true
    | _ => false
    end).

(** Up and right held, no mode line asserted. *)
Definition sample_raw_up_right : RawInputState :=
  PerLine.build (fun name =>
    match name with
    | Line.stick_up | Line.stick_right => true
    | _ => false
    end).



(** Left held with the right-stick mode line asserted. *)
Definition sample_raw_rs : RawInputState :=
  PerLine.build (fun name =>
    match name with
    | Line.stick_left | Line.mode_rs => true
    | _ => false
    end).

(** Select, start, home and north held, with the lock line or
    without. *)
Definition sample_raw_locked (lock : bool) : RawInputState :=
  PerLine.build (fun name =>
    match name with
    | Line.button_select | Line.button_start | Line.button_home
    | Line.button_north => true
    | Line.mode_lock => lock
    | _ => false
    end).

(** The globals at start-up, the touchpad payload being a number. *)
Definition sample_globals : Globals Z :=
  {| touchpad_data := 0;
     button_history := PerLine.build (fun _ => ButtonHistory_zero);
     input_locked := false;
     display_locked_calls := [] |}.

(** The cache after the registration of the ports at addresses 10 and
    20. *)
Definition sample_cache_two : PortCache :=
  {| gpio_devices := [10; 20; NULL; NULL]; gpio_device_count := 2 |}.

(** A cache holding four ports, and drivers whose read of the port at
    address 20 reports a fault. *)
Definition sample_cache_full : PortCache :=
  {| gpio_devices := [10; 20; 30; 40]; gpio_device_count := 4 |}.

Definition sample_port_fault (device : Z) : Z * Z :=
  if device =? 20 then (-5, 0) else (0, 0xFFFF).

(** Raw input that flips on every tick, right after a change accepted on
    tick 1000, with a dwell of 5 ticks. *)
Definition noisy_history : ButtonHistory := {| state := false; tick := 1000 |}.

Definition noisy_samples : list Sample :=
  [(true, 1001); (false, 1002); (true, 1003); (false, 1004);
   (true, 1005); (false, 1006)].

(** A press held over five polls, the first one a tick after the last
    accepted change. *)
Definition held_samples : list Sample :=
  [(true, 1001); (true, 1003); (true, 1005); (true, 1006); (true, 1010)].

(** ** Lock gate over several polls *)

(** [input_set_locked] called with one value after the other. *)
Fixpoint input_set_locked_all {TouchpadData : Type}
    (CONFIG_PASSINGLINK_DISPLAY : bool) (values : list bool)
    (g : Globals TouchpadData) : Globals TouchpadData :=
  match values with
  | [] => g
  | locked :: rest =>
      input_set_locked_all CONFIG_PASSINGLINK_DISPLAY rest
        (input_set_locked CONFIG_PASSINGLINK_DISPLAY locked g)
  end.

(** The list starts with [first] and flips from each element to the
    next. *)
Fixpoint alternating (first : bool) (l : list bool) : Prop :=
  match l with
  | [] => True
  | b :: rest => b = first /\ alternating (negb first) rest
  end.

(** Drivers for the sample board: the buttons sit on the port at
    address 10, the directions on the port at 20, the mode lines on the
    port at 30; every pin configures; every line is active low, the up
    direction on pin 2 and the other lines on pin 3; all the ports read
    without a fault, the port at 20 with pin 2 low. *)
Definition sample_binding (name : Line.t) : Z :=
  match name with
  | Line.stick_up | Line.stick_down
  | Line.stick_left | Line.stick_right => 20
  | Line.mode_lock | Line.mode_dpad | Line.mode_ls | Line.mode_rs => 30
  | _ => 10
  end.

Definition sample_binding_missing (name : Line.t) : Z :=
  match name with
  | Line.mode_lock => NULL
  | _ => sample_binding name
  end.

Definition sample_configure (device : Z) (name : Line.t) : Z := 0.

Definition sample_pin (name : Line.t) : Z :=
  match name with
  | Line.stick_up => 2
  | _ => 3
  end.

Definition sample_flags (name : Line.t) : Z := GPIO_ACTIVE_LOW.

Definition sample_port_read (device : Z) : Z * Z :=
  (0, if device =? 20 then 0xFFFB else 0xFFFF).

(** The cache and the indices [input_gpio_init] leaves on the sample
    board. *)
Definition sample_wiring : PortCache * list Z :=
  Eval vm_compute in
    match input_gpio_init sample_gpios 21 sample_binding sample_configure with
    | Returned wiring => wiring
    | Panicked _ => (PortCache_zero, [])
    end.

(* ===================================================================== *)
(** * Part 2: properties                                                  *)
(* ===================================================================== *)

(** ** Debounce engine *)

Lemma uint64_sub_exact (a b : Z) :
  0 <= b -> b <= a -> a <= uint64_max -> uint64_sub a b = a - b.
Proof.
  unfold uint64_sub, uint64_max. intros Hb Hab Ha.
  apply Z.mod_small. lia.
Qed.

Lemma eqb_false_negb (a b : bool) : Bool.eqb a b = false -> negb a = b.
Proof. destruct a, b; simpl; congruence. Qed.

(** C1: the three cases of the debounce function.  A raw value equal to
    the history state is returned and the history is left as it is; a
    different raw value arriving less than [transition_time] ticks (in
    wrapping 64-bit arithmetic) after the recorded tick is rejected: the
    function returns its negation, which is the previously accepted
    value, and the history is left as it is; otherwise the history takes
    the raw value and the current tick and the raw value is returned. *)
Theorem input_debounce_cases (transition_time : Z) (v : bool)
    (h : ButtonHistory) (t : Z) :
  (v = state h -> input_debounce transition_time v h t = (v, h)) /\
  (v <> state h -> uint64_sub t (tick h) < transition_time ->
     input_debounce transition_time v h t = (negb v, h) /\
     negb v = state h) /\
  (v <> state h -> ~ uint64_sub t (tick h) < transition_time ->
     input_debounce transition_time v h t =
       (v, {| state := v; tick := t |})).
Proof.
  unfold input_debounce.
  destruct (Bool.eqb v (state h)) eqn:E.
  - apply Bool.eqb_prop in E. repeat split; intros; congruence.
  - assert (Hneg : negb v = state h) by (by apply eqb_false_negb).
    split; [intros Heq; rewrite Heq, Bool.eqb_reflx in E; discriminate |].
    split; intros _ Hd.
    + apply Z.ltb_lt in Hd. by rewrite Hd.
    + apply Z.ltb_nlt in Hd. by rewrite Hd.
Qed.

Lemma input_debounce_cases_witness :
  input_debounce 5 true {| state := true; tick := 7 |} 9
    = (true, {| state := true; tick := 7 |}) /\
  (input_debounce 5 true {| state := false; tick := 7 |} 9
    = (false, {| state := false; tick := 7 |}) /\
   negb true = false) /\
  input_debounce 5 true {| state := false; tick := 7 |} 12
    = (true, {| state := true; tick := 12 |}).
Proof.
  split; [| split].
  - apply (proj1 (input_debounce_cases 5 true
                    {| state := true; tick := 7 |} 9)).
    reflexivity.
  - apply (proj1 (proj2 (input_debounce_cases 5 true
                    {| state := false; tick := 7 |} 9))).
    + simpl. discriminate.
    + vm_compute. reflexivity.
  - apply (proj2 (proj2 (input_debounce_cases 5 true
                    {| state := false; tick := 7 |} 12))).
    + simpl. discriminate.
    + vm_compute. discriminate.
Defined.

(** C10: the value returned by the debounce function is the state held by
    the history when the function returns. *)
Theorem input_debounce_returns_history_state (transition_time : Z)
    (v : bool) (h : ButtonHistory) (t : Z) :
  fst (input_debounce transition_time v h t)
    = state (snd (input_debounce transition_time v h t)).
Proof.
  unfold input_debounce.
  destruct (Bool.eqb v (state h)) eqn:E.
  - simpl. by apply Bool.eqb_prop.
  - destruct (uint64_sub t (tick h) <? transition_time); simpl.
    + by apply eqb_false_negb.
    + reflexivity.
Qed.

(** *** One line over several polls *)

Lemma separated_lower (dwell : Z) (l : list Z) :
  0 <= dwell -> forall last, separated dwell last l ->
  Forall (fun t => last + dwell <= t) l.
Proof.
  intros Hd. induction l as [| t rest IH]; intros last Hs.
  - constructor.
  - destruct Hs as [Hle Hrest]. constructor; [exact Hle |].
    eapply Forall_impl; [exact (IH t Hrest) |].
    simpl. intros x Hx. lia.
Qed.

Lemma filter_window_none (lo hi : Z) (l : list Z) :
  Forall (fun x => hi <= x) l -> filter (fun x => lo <= x < hi) l = [].
Proof.
  induction 1 as [| x rest Hx _ IH]; [done |].
  rewrite filter_cons_False by lia. exact IH.
Qed.

Lemma separated_window (dwell : Z) (l : list Z) :
  0 <= dwell -> forall last w, separated dwell last l ->
  (changes_in_window dwell w l <= 1)%nat.
Proof.
  intros Hd. unfold changes_in_window.
  induction l as [| t rest IH]; intros last w Hs; simpl; [lia |].
  destruct Hs as [Hle Hrest].
  rewrite filter_cons. case_decide as Hin.
  - assert (Hnone : filter (fun x => w <= x < w + dwell) rest = []).
    { apply filter_window_none.
      eapply Forall_impl; [exact (separated_lower dwell rest Hd t Hrest) |].
      simpl. intros x Hx. lia. }
    rewrite Hnone. simpl. lia.
  - exact (IH t w Hrest).
Qed.

Lemma accepted_changes_separated (transition_time : Z)
    (samples : list Sample) :
  forall (h : ButtonHistory) (last : Z),
    0 <= tick h -> tick h <= last ->
    ticks_nondecreasing last samples = true ->
    separated transition_time (tick h)
      (accepted_changes transition_time h samples).
Proof.
  induction samples as [| [v t] rest IH]; intros h last H0 Hlast Hmono;
    simpl; [done |].
  simpl in Hmono.
  apply andb_true_iff in Hmono as [Hmono Hrest].
  apply andb_true_iff in Hmono as [Hlt Hmax].
  apply Z.leb_le in Hlt. apply Z.leb_le in Hmax.
  unfold input_debounce.
  destruct (Bool.eqb v (state h)) eqn:E; simpl.
  - rewrite Bool.eqb_reflx. apply (IH h t); [done | lia | done].
  - rewrite uint64_sub_exact by lia.
    destruct (t - tick h <? transition_time) eqn:Hd; simpl.
    + rewrite Bool.eqb_reflx. apply (IH h t); [done | lia | done].
    + rewrite E. apply Z.ltb_ge in Hd. split; [lia |].
      apply (IH {| state := v; tick := t |} t); simpl; [lia | lia | done].
Qed.

Lemma debounce_holds_within_dwell (transition_time : Z)
    (samples : list Sample) :
  forall (h : ButtonHistory) (last : Z),
    0 <= tick h -> tick h <= last ->
    ticks_nondecreasing last samples = true ->
    within_dwell transition_time (tick h) samples = true ->
    Forall (fun r => r = state h) (debounce_run transition_time h samples)
    /\ debounce_final transition_time h samples = h.
Proof.
  induction samples as [| [v t] rest IH]; intros h last H0 Hlast Hmono Hin;
    simpl; [by split |].
  simpl in Hmono, Hin.
  apply andb_true_iff in Hmono as [Hmono Hrest].
  apply andb_true_iff in Hmono as [Hlt Hmax].
  apply andb_true_iff in Hin as [Hnow Hlater].
  apply Z.leb_le in Hlt. apply Z.leb_le in Hmax.
  unfold input_debounce.
  destruct (Bool.eqb v (state h)) eqn:E; simpl.
  - apply Bool.eqb_prop in E.
    destruct (IH h t) as [Hrun Hfin]; [done | lia | done | done |].
    split; [by constructor | done].
  - rewrite uint64_sub_exact by lia. rewrite Hnow. simpl.
    destruct (IH h t) as [Hrun Hfin]; [done | lia | done | done |].
    split; [constructor; [by apply eqb_false_negb | done] | done].
Qed.

(** C7, as the code has it: over non-decreasing ticks, two changes of the
    accepted value are at least [transition_time] ticks apart, so that
    every window of [transition_time] ticks holds at most one change;
    and as long as the samples arrive less than [transition_time] ticks
    after the last accepted change, the accepted value and the history
    stay as they are. *)
Theorem debounce_changes_once_per_window (transition_time : Z)
    (h : ButtonHistory) (samples : list Sample) :
  0 <= transition_time ->
  0 <= tick h ->
  ticks_nondecreasing (tick h) samples = true ->
  (forall w : Z,
     (changes_in_window transition_time w
        (accepted_changes transition_time h samples) <= 1)%nat) /\
  separated transition_time (tick h)
    (accepted_changes transition_time h samples) /\
  (within_dwell transition_time (tick h) samples = true ->
     Forall (fun r => r = state h) (debounce_run transition_time h samples)
     /\ debounce_final transition_time h samples = h).
Proof.
  intros Hd H0 Hmono.
  assert (Hsep : separated transition_time (tick h)
                   (accepted_changes transition_time h samples)).
  { apply (accepted_changes_separated transition_time samples h (tick h));
      [done | lia | done]. }
  split; [| split].
  - intros w. by apply (separated_window transition_time _ Hd (tick h)).
  - exact Hsep.
  - intros Hin.
    apply (debounce_holds_within_dwell transition_time samples h (tick h));
      [done | lia | done | done].
Qed.

Lemma debounce_changes_once_per_window_witness :
  (forall w : Z,
     (changes_in_window 5 w
        (accepted_changes 5 noisy_history noisy_samples) <= 1)%nat) /\
  separated 5 (tick noisy_history)
    (accepted_changes 5 noisy_history noisy_samples) /\
  (within_dwell 5 (tick noisy_history) noisy_samples = true ->
     Forall (fun r => r = state noisy_history)
       (debounce_run 5 noisy_history noisy_samples)
     /\ debounce_final 5 noisy_history noisy_samples = noisy_history).
Proof.
  apply (debounce_changes_once_per_window 5 noisy_history noisy_samples).
  - lia.
  - simpl. lia.
  - reflexivity.
Defined.

(** C7 as stated fails: the raw value flips on every tick, faster than
    the dwell of 5 ticks, and the accepted value still goes from false
    to true on tick 1005. *)
Lemma debounce_noise_counterexample :
  ~ (forall (transition_time : Z) (h : ButtonHistory)
            (samples : list Sample),
       0 <= tick h ->
       ticks_nondecreasing (tick h) samples = true ->
       toggles_faster_than transition_time samples = true ->
       Forall (fun r => r = state h)
         (debounce_run transition_time h samples)).
Proof.
  intros Hclaim.
  specialize (Hclaim 5 noisy_history noisy_samples).
  assert (Hall : Forall (fun r => r = state noisy_history)
                   (debounce_run 5 noisy_history noisy_samples)).
  { apply Hclaim; [simpl; lia | reflexivity | reflexivity]. }
  assert (Hrun : debounce_run 5 noisy_history noisy_samples
                 = [false; false; false; false; true; true])
    by reflexivity.
  rewrite Hrun in Hall.
  do 4 (apply Forall_cons in Hall as [_ Hall]).
  apply Forall_cons in Hall as [Habs _].
  discriminate Habs.
Qed.

(** ** Structures with one member per line *)

Lemma PerLine_get_build {A : Type} (f : Line.t -> A) (name : Line.t) :
  PerLine.get name (PerLine.build f) = f name.
Proof. by destruct name. Qed.

Lemma PerLine_get_set_eq {A : Type} (name : Line.t) (v : A)
    (r : PerLine.t A) :
  PerLine.get name (PerLine.set name v r) = v.
Proof.
  unfold PerLine.set. rewrite PerLine_get_build. by rewrite decide_True.
Qed.

Lemma PerLine_get_set_ne {A : Type} (name other : Line.t) (v : A)
    (r : PerLine.t A) :
  other <> name ->
  PerLine.get other (PerLine.set name v r) = PerLine.get other r.
Proof.
  intros Hne. unfold PerLine.set. rewrite PerLine_get_build.
  by rewrite decide_False.
Qed.

(** ** Stick synthesizer *)

(** C2: opposing directions asserted together cancel.  With up and down
    both set the vertical intent is 0, with left and right both set the
    horizontal intent is 0, whatever the other members of the snapshot
    hold. *)
Theorem socd_neutral_on_conflict (in_ : RawInputState) :
  (PerLine.stick_up in_ = true -> PerLine.stick_down in_ = true ->
     stick_vertical_of in_ = 0) /\
  (PerLine.stick_left in_ = true -> PerLine.stick_right in_ = true ->
     stick_horizontal_of in_ = 0).
Proof.
  unfold stick_vertical_of, stick_horizontal_of.
  split; intros H1 H2; rewrite H1, H2; reflexivity.
Qed.

Lemma socd_neutral_on_conflict_witness :
  stick_vertical_of sample_raw_conflict = 0 /\
  stick_horizontal_of sample_raw_conflict = 0.
Proof.
  split.
  - apply (proj1 (socd_neutral_on_conflict sample_raw_conflict));
      reflexivity.
  - apply (proj2 (socd_neutral_on_conflict sample_raw_conflict));
      reflexivity.
Defined.

(** C3: the nine sign pairs and their compass states. *)
Theorem stick_state_from_x_y_table :
  stick_state_from_x_y 0 (-1) = StickState.North /\
  stick_state_from_x_y 1 (-1) = StickState.NorthEast /\
  stick_state_from_x_y 1 0 = StickState.East /\
  stick_state_from_x_y 1 1 = StickState.SouthEast /\
  stick_state_from_x_y 0 1 = StickState.South /\
  stick_state_from_x_y (-1) 1 = StickState.SouthWest /\
  stick_state_from_x_y (-1) 0 = StickState.West /\
  stick_state_from_x_y (-1) (-1) = StickState.NorthWest /\
  stick_state_from_x_y 0 0 = StickState.Neutral.
Proof. repeat split. Qed.

Lemma stick_vertical_of_sign (in_ : RawInputState) :
  stick_vertical_of in_ = -1 \/ stick_vertical_of in_ = 0
  \/ stick_vertical_of in_ = 1.
Proof.
  unfold stick_vertical_of.
  destruct (PerLine.stick_up in_), (PerLine.stick_down in_); simpl; lia.
Qed.

Lemma stick_horizontal_of_sign (in_ : RawInputState) :
  stick_horizontal_of in_ = -1 \/ stick_horizontal_of in_ = 0
  \/ stick_horizontal_of in_ = 1.
Proof.
  unfold stick_horizontal_of.
  destruct (PerLine.stick_right in_), (PerLine.stick_left in_); simpl; lia.
Qed.






(** A list that does name the pad: its own line then selects it, ahead
    of the stick modes. *)
Remark output_mode_pad_line (in_ : RawInputState) :
  PerLine.mode_dpad in_ = true ->
  input_parse_output_mode
    [(19, OutputMode.mode_dpad); (20, OutputMode.mode_ls)] in_
  = OutputMode.mode_dpad.
Proof. intros H. unfold input_parse_output_mode. simpl. by rewrite H. Qed.

(** ** Pipeline: modes and lock gate *)

Section Pipeline.

Context {TouchpadData : Type}.
Variable PL_GPIOS : list (Z * Line.t).
Variable transition_time : Z.
Variable PL_GPIO_OUTPUT_MODES : list (Z * OutputMode.t).
Variable PL_GPIO_MODE_LOCK_AVAILABLE : bool.
Variable CONFIG_PASSINGLINK_DISPLAY : bool.

(** C4: in a stick mode the two axes of the selected stick are the
    scaled horizontal and vertical intents, -1 to 0x00, 0 to 0x80 and 1
    to 0xFF, while the pad is Neutral and the other stick is centred at
    (0x80, 0x80); in the pad mode both sticks are centred. *)
Theorem stick_mode_outputs (g : Globals TouchpadData)
    (in_ : RawInputState) (k_uptime_ticks : Z) :
  let out := fst (fst (input_parse PL_GPIOS transition_time PL_GPIO_OUTPUT_MODES
            PL_GPIO_MODE_LOCK_AVAILABLE CONFIG_PASSINGLINK_DISPLAY
            g in_ k_uptime_ticks)) in
  let in' := fst (input_parse_debounced PL_GPIOS transition_time
         PL_GPIO_MODE_LOCK_AVAILABLE CONFIG_PASSINGLINK_DISPLAY
         g in_ k_uptime_ticks) in
  let horizontal := stick_horizontal_of in' in
  let vertical := stick_vertical_of in' in
  match input_parse_output_mode PL_GPIO_OUTPUT_MODES in' with
  | OutputMode.mode_ls =>
      InputState.left_stick_x out = stick_scale horizontal /\
      InputState.left_stick_y out = stick_scale vertical /\
      InputState.dpad out = StickState.Neutral /\
      InputState.right_stick_x out = 0x80 /\
      InputState.right_stick_y out = 0x80
  | OutputMode.mode_rs =>
      InputState.right_stick_x out = stick_scale horizontal /\
      InputState.right_stick_y out = stick_scale vertical /\
      InputState.dpad out = StickState.Neutral /\
      InputState.left_stick_x out = 0x80 /\
      InputState.left_stick_y out = 0x80
  | OutputMode.mode_dpad =>
      InputState.dpad out = stick_state_from_x_y horizontal vertical /\
      InputState.left_stick_x out = 0x80 /\
      InputState.left_stick_y out = 0x80 /\
      InputState.right_stick_x out = 0x80 /\
      InputState.right_stick_y out = 0x80
  end /\
  (horizontal = -1 \/ horizontal = 0 \/ horizontal = 1) /\
  (vertical = -1 \/ vertical = 0 \/ vertical = 1) /\
  stick_scale (-1) = 0x00 /\ stick_scale 0 = 0x80 /\ stick_scale 1 = 0xFF.
Proof.
  intros out in' horizontal vertical.
  split; [| split; [apply stick_horizontal_of_sign |
            split; [apply stick_vertical_of_sign | by repeat split]]].
  subst out horizontal vertical in'. unfold input_parse.
  cbn [fst snd InputState.dpad InputState.left_stick_x
       InputState.left_stick_y InputState.right_stick_x
       InputState.right_stick_y].
  destruct (input_parse_output_mode PL_GPIO_OUTPUT_MODES
              (fst (input_parse_debounced PL_GPIOS transition_time
         PL_GPIO_MODE_LOCK_AVAILABLE CONFIG_PASSINGLINK_DISPLAY
         g in_ k_uptime_ticks)));
    repeat split; reflexivity.
Qed.

(** C6: the lock gate.  Whatever the snapshot, the output buttons other
    than select, start and home are those of the debounced snapshot;
    with the lock engaged select, start and home are false, without it
    they are those of the debounced snapshot too.  The lock is the
    debounced lock line when the board has one, and the stored flag
    otherwise. *)
Theorem lock_gate_buttons (g : Globals TouchpadData)
    (in_ : RawInputState) (k_uptime_ticks : Z) :
  let out := fst (fst (input_parse PL_GPIOS transition_time PL_GPIO_OUTPUT_MODES
            PL_GPIO_MODE_LOCK_AVAILABLE CONFIG_PASSINGLINK_DISPLAY
            g in_ k_uptime_ticks)) in
  let in' := fst (input_parse_debounced PL_GPIOS transition_time
         PL_GPIO_MODE_LOCK_AVAILABLE CONFIG_PASSINGLINK_DISPLAY
         g in_ k_uptime_ticks) in
  let locked := input_locked (snd (input_parse_debounced PL_GPIOS transition_time
         PL_GPIO_MODE_LOCK_AVAILABLE CONFIG_PASSINGLINK_DISPLAY
         g in_ k_uptime_ticks)) in
  in' = fst (input_debounce_all PL_GPIOS transition_time
               (to_uint64 k_uptime_ticks) in_ (button_history g)) /\
  locked = (if PL_GPIO_MODE_LOCK_AVAILABLE then PerLine.mode_lock in'
            else input_locked g) /\
  (InputState.button_north out = PerLine.button_north in' /\
   InputState.button_east out = PerLine.button_east in' /\
   InputState.button_south out = PerLine.button_south in' /\
   InputState.button_west out = PerLine.button_west in' /\
   InputState.button_l1 out = PerLine.button_l1 in' /\
   InputState.button_l2 out = PerLine.button_l2 in' /\
   InputState.button_l3 out = PerLine.button_l3 in' /\
   InputState.button_r1 out = PerLine.button_r1 in' /\
   InputState.button_r2 out = PerLine.button_r2 in' /\
   InputState.button_r3 out = PerLine.button_r3 in' /\
   InputState.button_touchpad out = PerLine.button_touchpad in') /\
  (locked = true ->
     InputState.button_select out = false /\
     InputState.button_start out = false /\
     InputState.button_home out = false) /\
  (locked = false ->
     InputState.button_select out = PerLine.button_select in' /\
     InputState.button_start out = PerLine.button_start in' /\
     InputState.button_home out = PerLine.button_home in').
Proof.
  intros out in' locked. subst out in' locked.
  split; [reflexivity |].
  split; [unfold input_parse_debounced;
          by destruct PL_GPIO_MODE_LOCK_AVAILABLE |].
  split; [by repeat split |].
  unfold input_parse. simpl.
  split; intros ->; by repeat split.
Qed.

End Pipeline.

Lemma lock_gate_buttons_witness :
  let out lock :=
    fst (fst (input_parse sample_gpios 5 sample_modes true true
                sample_globals (sample_raw_locked lock) 1000)) in
  (InputState.button_select (out true) = false /\
   InputState.button_start (out true) = false /\
   InputState.button_home (out true) = false) /\
  (InputState.button_select (out false) = true /\
   InputState.button_start (out false) = true /\
   InputState.button_home (out false) = true).
Proof.
  split.
  - apply (lock_gate_buttons sample_gpios 5 sample_modes true true
             sample_globals (sample_raw_locked true) 1000).
    reflexivity.
  - apply (lock_gate_buttons sample_gpios 5 sample_modes true true
             sample_globals (sample_raw_locked false) 1000).
    reflexivity.
Defined.

(** ** Port cache *)

Lemma gpio_device_scan_Some (device : Z) (devices : list Z) (n : nat) :
  forall (i k : Z), 0 <= i ->
    gpio_device_scan device devices i n = Some k ->
    i <= k < i + Z.of_nat n /\ devices !! Z.to_nat k = Some device.
Proof.
  induction n as [| n IH]; intros i k Hi Hscan; simpl in Hscan;
    [discriminate |].
  case_decide as Hslot.
  - injection Hscan as <-. split; [lia | exact Hslot].
  - destruct (IH (i + 1) k) as [Hrange Hk]; [lia | exact Hscan |].
    split; [lia | exact Hk].
Qed.

Lemma gpio_device_scan_None (device : Z) (devices : list Z) (n : nat) :
  forall (i : Z), 0 <= i ->
    gpio_device_scan device devices i n = None ->
    forall j : nat, i <= Z.of_nat j < i + Z.of_nat n ->
      devices !! j <> Some device.
Proof.
  induction n as [| n IH]; intros i Hi Hscan j Hj; simpl in Hscan; [lia |].
  case_decide as Hslot; [discriminate |].
  destruct (decide (Z.of_nat j = i)) as [<- | Hne].
  - by rewrite Nat2Z.id in Hslot.
  - apply (IH (i + 1)); [lia | exact Hscan | lia].
Qed.

Lemma cache_wf_zero : cache_wf PortCache_zero.
Proof.
  unfold PortCache_zero.
  split; cbn [gpio_devices gpio_device_count].
  - apply length_replicate.
  - unfold GPIO_PORT_COUNT. lia.
  - intros i d Hi. lia.
  - intros i d _ Hd. apply lookup_replicate in Hd as [-> _]. reflexivity.
  - intros i j d Hi. lia.
Qed.

Lemma gpio_device_add_cached (s : PortCache) (device : Z) (i : nat) :
  cache_wf s ->
  Z.of_nat i < gpio_device_count s ->
  gpio_devices s !! i = Some device ->
  gpio_device_add device s = Returned (Z.of_nat i, s).
Proof.
  intros Hwf Hi Hslot. unfold gpio_device_add.
  pose proof (wf_count s Hwf) as Hcount.
  destruct (gpio_device_scan device (gpio_devices s) 0
              (Z.to_nat GPIO_PORT_COUNT)) as [k |] eqn:Hscan.
  - apply gpio_device_scan_Some in Hscan as [Hk Hfound]; [| lia].
    assert (Hnonnull : device <> NULL) by exact (wf_used s Hwf i device Hi Hslot).
    assert (Hused : k < gpio_device_count s).
    { destruct (Z_lt_ge_dec k (gpio_device_count s)) as [Hlt | Hge]; [done |].
      exfalso. apply Hnonnull.
      apply (wf_free s Hwf (Z.to_nat k)); [lia | exact Hfound]. }
    assert (Heq : Z.to_nat k = i).
    { apply (wf_distinct s Hwf (Z.to_nat k) i device); [lia | lia | done | done]. }
    replace k with (Z.of_nat i) by lia. reflexivity.
  - exfalso.
    apply (gpio_device_scan_None device (gpio_devices s) _ 0 ltac:(lia) Hscan i);
      [unfold GPIO_PORT_COUNT in *; lia | exact Hslot].
Qed.

Lemma gpio_device_add_fresh (s : PortCache) (device : Z) :
  cache_wf s ->
  device <> NULL ->
  ~ cached device s ->
  gpio_device_count s < GPIO_PORT_COUNT ->
  gpio_device_add device s =
    Returned (gpio_device_count s,
              {| gpio_devices :=
                   <[Z.to_nat (gpio_device_count s) := device]> (gpio_devices s);
                 gpio_device_count := gpio_device_count s + 1 |}).
Proof.
  intros Hwf Hnonnull Hfresh Hroom. unfold gpio_device_add.
  pose proof (wf_count s Hwf) as Hcount.
  destruct (gpio_device_scan device (gpio_devices s) 0
              (Z.to_nat GPIO_PORT_COUNT)) as [k |] eqn:Hscan.
  - exfalso.
    apply gpio_device_scan_Some in Hscan as [Hk Hfound]; [| lia].
    destruct (Z_lt_ge_dec k (gpio_device_count s)) as [Hlt | Hge].
    + apply Hfresh. exists (Z.to_nat k). split; [lia | exact Hfound].
    + apply Hnonnull.
      apply (wf_free s Hwf (Z.to_nat k)); [lia | exact Hfound].
  - destruct (gpio_device_count s =? GPIO_PORT_COUNT) eqn:Hfull;
      [apply Z.eqb_eq in Hfull; lia |].
    unfold uint8_incr. rewrite Z.mod_small;
      [reflexivity | unfold GPIO_PORT_COUNT in *; lia].
Qed.

Lemma gpio_device_add_full (s : PortCache) (device : Z) :
  gpio_device_count s = GPIO_PORT_COUNT ->
  ~ cached device s ->
  gpio_device_add device s = Panicked "ran out of cached GPIO device slots".
Proof.
  intros Hfull Hfresh. unfold gpio_device_add.
  destruct (gpio_device_scan device (gpio_devices s) 0
              (Z.to_nat GPIO_PORT_COUNT)) as [k |] eqn:Hscan.
  - exfalso. apply Hfresh.
    apply gpio_device_scan_Some in Hscan as [Hk Hfound]; [| lia].
    exists (Z.to_nat k). split; [lia | exact Hfound].
  - by rewrite Hfull, Z.eqb_refl.
Qed.

(** What a registration that returns leaves behind: the cache as it was
    when the device was there, the device in the first free slot
    otherwise. *)
Lemma gpio_device_add_inv (s s' : PortCache) (device i : Z) :
  cache_wf s ->
  gpio_device_add device s = Returned (i, s') ->
  (s' = s /\ 0 <= i < GPIO_PORT_COUNT /\
   gpio_devices s !! Z.to_nat i = Some device) \/
  (i = gpio_device_count s /\ gpio_device_count s < GPIO_PORT_COUNT /\
   (forall j : nat, (j < 4)%nat -> gpio_devices s !! j <> Some device) /\
   s' = {| gpio_devices :=
             <[Z.to_nat (gpio_device_count s) := device]> (gpio_devices s);
           gpio_device_count := gpio_device_count s + 1 |}).
Proof.
  intros Hwf Hadd. unfold gpio_device_add in Hadd.
  pose proof (wf_count s Hwf) as Hcount.
  destruct (gpio_device_scan device (gpio_devices s) 0
              (Z.to_nat GPIO_PORT_COUNT)) as [k |] eqn:Hscan.
  - left. injection Hadd as <- <-.
    apply gpio_device_scan_Some in Hscan as [Hk Hfound]; [| lia].
    split; [reflexivity |]. split; [lia | exact Hfound].
  - right.
    destruct (gpio_device_count s =? GPIO_PORT_COUNT) eqn:Hfull;
      [discriminate |].
    apply Z.eqb_neq in Hfull. injection Hadd as <- <-.
    split; [reflexivity |]. split; [lia |]. split.
    + intros j Hj.
      apply (gpio_device_scan_None device (gpio_devices s) _ 0
               ltac:(lia) Hscan j).
      unfold GPIO_PORT_COUNT. lia.
    + unfold uint8_incr. rewrite Z.mod_small;
        [reflexivity | unfold GPIO_PORT_COUNT in *; lia].
Qed.

(** A null pointer is never stored: as long as a slot is free the scan
    stops on it, and a full cache panics. *)
Lemma gpio_device_add_stores_nonnull (s : PortCache) (device : Z) :
  cache_wf s ->
  gpio_device_count s < GPIO_PORT_COUNT ->
  (forall j : nat, (j < 4)%nat -> gpio_devices s !! j <> Some device) ->
  device <> NULL.
Proof.
  intros Hwf Hroom Hnew ->.
  pose proof (wf_count s Hwf) as Hcount.
  pose proof (wf_length s Hwf) as Hlen.
  destruct (lookup_lt_is_Some_2 (gpio_devices s)
              (Z.to_nat (gpio_device_count s))) as [d Hd];
    [unfold GPIO_PORT_COUNT in *; lia |].
  apply (Hnew (Z.to_nat (gpio_device_count s)));
    [unfold GPIO_PORT_COUNT in *; lia |].
  rewrite Hd. f_equal.
  apply (wf_free s Hwf (Z.to_nat (gpio_device_count s))); [lia | exact Hd].
Qed.

Lemma gpio_device_add_wf (s s' : PortCache) (device i : Z) :
  cache_wf s ->
  gpio_device_add device s = Returned (i, s') ->
  cache_wf s'.
Proof.
  intros Hwf Hadd.
  destruct (gpio_device_add_inv s s' device i Hwf Hadd)
    as [[-> _] | (_ & Hroom & Hnew & ->)]; [exact Hwf |].
  pose proof (gpio_device_add_stores_nonnull s device Hwf Hroom Hnew)
    as Hnonnull.
  pose proof (wf_count s Hwf) as Hcount.
  pose proof (wf_length s Hwf) as Hlen.
  assert (Hslot : (Z.to_nat (gpio_device_count s) < length (gpio_devices s))%nat)
    by (unfold GPIO_PORT_COUNT in *; lia).
  split; cbn [gpio_devices gpio_device_count].
  - by rewrite length_insert.
  - lia.
  - intros j d Hj Hd.
    destruct (decide (j = Z.to_nat (gpio_device_count s))) as [-> | Hne].
    + rewrite list_lookup_insert_eq in Hd by exact Hslot. congruence.
    + rewrite list_lookup_insert_ne in Hd by congruence.
      apply (wf_used s Hwf j d); [lia | exact Hd].
  - intros j d Hj Hd.
    rewrite list_lookup_insert_ne in Hd by lia.
    apply (wf_free s Hwf j d); [lia | exact Hd].
  - intros j1 j2 d Hj1 Hj2 Hd1 Hd2.
    assert (Hold : forall j : nat,
               j <> Z.to_nat (gpio_device_count s) ->
               Z.of_nat j < gpio_device_count s + 1 ->
               <[Z.to_nat (gpio_device_count s) := device]> (gpio_devices s) !! j
                 = Some d ->
               Z.of_nat j < gpio_device_count s /\
               gpio_devices s !! j = Some d).
    { intros j Hne Hj Hd. rewrite list_lookup_insert_ne in Hd by congruence.
      split; [lia | exact Hd]. }
    assert (Hat : forall j : nat,
               j = Z.to_nat (gpio_device_count s) ->
               <[Z.to_nat (gpio_device_count s) := device]> (gpio_devices s) !! j
                 = Some d ->
               d = device).
    { intros j -> Hd. rewrite list_lookup_insert_eq in Hd by exact Hslot.
      congruence. }
    destruct (decide (j1 = Z.to_nat (gpio_device_count s))) as [E1 | N1],
             (decide (j2 = Z.to_nat (gpio_device_count s))) as [E2 | N2].
    + congruence.
    + exfalso. pose proof (Hat j1 E1 Hd1) as Heq. subst d.
      destruct (Hold j2 N2 Hj2 Hd2) as [Hlt Hd].
      apply (Hnew j2); [unfold GPIO_PORT_COUNT in *; lia | exact Hd].
    + exfalso. pose proof (Hat j2 E2 Hd2) as Heq. subst d.
      destruct (Hold j1 N1 Hj1 Hd1) as [Hlt Hd].
      apply (Hnew j1); [unfold GPIO_PORT_COUNT in *; lia | exact Hd].
    + destruct (Hold j1 N1 Hj1 Hd1) as [Hlt1 Hd1'].
      destruct (Hold j2 N2 Hj2 Hd2) as [Hlt2 Hd2'].
      exact (wf_distinct s Hwf j1 j2 d Hlt1 Hlt2 Hd1' Hd2').
Qed.

Lemma gpio_device_add_all_wf (handles : list Z) :
  forall s s' : PortCache,
    cache_wf s ->
    gpio_device_add_all handles s = Returned s' ->
    cache_wf s'.
Proof.
  induction handles as [| d rest IH]; intros s s' Hwf Hall; simpl in Hall.
  - by injection Hall as <-.
  - destruct (gpio_device_add d s) as [[i s1] | msg] eqn:Hadd;
      simpl in Hall; [| discriminate].
    apply (IH s1 s'); [| exact Hall].
    exact (gpio_device_add_wf s s1 d i Hwf Hadd).
Qed.

Lemma gpio_device_add_twice (s s' : PortCache) (device i : Z) :
  cache_wf s ->
  gpio_device_add device s = Returned (i, s') ->
  gpio_device_add device s' = Returned (i, s').
Proof.
  intros Hwf Hadd.
  pose proof (gpio_device_add_wf s s' device i Hwf Hadd) as Hwf'.
  destruct (gpio_device_add_inv s s' device i Hwf Hadd)
    as [[-> _] | (-> & Hroom & _ & ->)]; [exact Hadd |].
  pose proof (wf_count s Hwf) as Hcount.
  pose proof (wf_length s Hwf) as Hlen.
  rewrite <- (Z2Nat.id (gpio_device_count s)) at 3 by lia.
  apply gpio_device_add_cached; [exact Hwf' | |];
    cbn [gpio_devices gpio_device_count].
  - lia.
  - apply list_lookup_insert_eq. unfold GPIO_PORT_COUNT in *. lia.
Qed.

(** The cache [input_gpio_init] leaves, when it returns, has that
    shape. *)
Lemma input_gpio_init_wf (PL_GPIOS : list (Z * Line.t))
    (PL_GPIO_COUNT : Z) (device_get_binding : Line.t -> Z)
    (gpio_pin_configure : Z -> Line.t -> Z)
    (s : PortCache) (gpio_indices : list Z) :
  input_gpio_init PL_GPIOS PL_GPIO_COUNT device_get_binding
    gpio_pin_configure = Returned (s, gpio_indices) ->
  cache_wf s.
Proof.
  unfold input_gpio_init.
  generalize (replicate (Z.to_nat PL_GPIO_COUNT) 0).
  generalize cache_wf_zero. generalize PortCache_zero.
  induction PL_GPIOS as [| entry rest IH]; intros s0 Hwf indices Hinit;
    cbn [input_gpio_init_lines] in Hinit.
  - by injection Hinit as <- _.
  - destruct (input_gpio_init_line PL_GPIO_COUNT device_get_binding
                gpio_pin_configure (s0, indices) entry)
      as [[s1 indices1] | msg] eqn:Hline; [| discriminate].
    refine (IH s1 _ indices1 Hinit).
    unfold input_gpio_init_line in Hline. cbn [fst snd] in Hline.
    destruct (device_get_binding (snd entry) =? NULL); [discriminate |].
    destruct (negb (gpio_pin_configure (device_get_binding (snd entry))
                      (snd entry) =? 0)); [discriminate |].
    destruct (gpio_device_add (device_get_binding (snd entry)) s0)
      as [[i s2] | msg] eqn:Hadd; [| discriminate].
    injection Hline as <- _.
    exact (gpio_device_add_wf s0 s2 _ i Hwf Hadd).
Qed.

(** C8: after any sequence of registrations, starting from the empty
    cache: a handle that is cached is given its index back and the cache
    is left as it is; a registration that returns, repeated, returns the
    same index and leaves the cache as the first one left it; a handle
    that is not cached goes to the next free index, the other slots
    staying as they are; and no handle sits at two indices. *)
Theorem port_cache_register (handles : list Z) (s : PortCache) :
  gpio_device_add_all handles PortCache_zero = Returned s ->
  (forall (d : Z) (i : nat),
     Z.of_nat i < gpio_device_count s ->
     gpio_devices s !! i = Some d ->
     gpio_device_add d s = Returned (Z.of_nat i, s)) /\
  (forall (d i : Z) (s' : PortCache),
     gpio_device_add d s = Returned (i, s') ->
     gpio_device_add d s' = Returned (i, s')) /\
  (forall d : Z,
     d <> NULL -> ~ cached d s ->
     gpio_device_count s < GPIO_PORT_COUNT ->
     exists s' : PortCache,
       gpio_device_add d s = Returned (gpio_device_count s, s') /\
       gpio_devices s' !! Z.to_nat (gpio_device_count s) = Some d /\
       gpio_device_count s' = gpio_device_count s + 1 /\
       forall j : nat,
         j <> Z.to_nat (gpio_device_count s) ->
         gpio_devices s' !! j = gpio_devices s !! j) /\
  (forall (i j : nat) (d : Z),
     Z.of_nat i < gpio_device_count s ->
     Z.of_nat j < gpio_device_count s ->
     gpio_devices s !! i = Some d ->
     gpio_devices s !! j = Some d -> i = j).
Proof.
  intros Hall.
  assert (Hwf : cache_wf s).
  { exact (gpio_device_add_all_wf handles PortCache_zero s
             cache_wf_zero Hall). }
  split; [| split; [| split]].
  - intros d i. by apply gpio_device_add_cached.
  - intros d i s'. by apply gpio_device_add_twice.
  - intros d Hd Hfresh Hroom.
    eexists. split; [by apply gpio_device_add_fresh |].
    cbn [gpio_devices gpio_device_count].
    pose proof (wf_count s Hwf) as Hcount.
    pose proof (wf_length s Hwf) as Hlen.
    split; [| split].
    + apply list_lookup_insert_eq. unfold GPIO_PORT_COUNT in *. lia.
    + reflexivity.
    + intros j Hj. by apply list_lookup_insert_ne.
  - exact (wf_distinct s Hwf).
Qed.

Lemma port_cache_register_witness :
  gpio_device_add 20 sample_cache_two = Returned (1, sample_cache_two) /\
  (exists s' : PortCache,
     gpio_device_add 30 sample_cache_two = Returned (2, s') /\
     gpio_devices s' !! 2%nat = Some 30 /\
     gpio_device_count s' = 3) /\
  (forall (i j : nat) (d : Z),
     Z.of_nat i < gpio_device_count sample_cache_two ->
     Z.of_nat j < gpio_device_count sample_cache_two ->
     gpio_devices sample_cache_two !! i = Some d ->
     gpio_devices sample_cache_two !! j = Some d -> i = j).
Proof.
  assert (Hall : gpio_device_add_all [10; 20; 10] PortCache_zero
                 = Returned sample_cache_two)
    by reflexivity.
  destruct (port_cache_register [10; 20; 10] sample_cache_two Hall)
    as (Hcached & _ & Hfresh & Hdistinct).
  split; [| split; [| exact Hdistinct]].
  - apply (Hcached 20 1%nat); [simpl; lia | reflexivity].
  - destruct (Hfresh 30) as (s' & Hadd & Hslot & Hcount & _).
    + unfold NULL. lia.
    + intros (i & Hi & Hslot). simpl in Hi.
      destruct i as [| [| i]]; simpl in Hslot; [discriminate.. | lia].
    + simpl. unfold GPIO_PORT_COUNT. lia.
    + exists s'. by repeat split.
Defined.

(** ** Raw state reader *)

Lemma gpio_read_ports_fault (gpio_port_get_raw : Z -> Z * Z)
    (s : PortCache) (n : nat) :
  forall (i : Z) (port_values : list Z) (j : nat),
    0 <= i ->
    i <= Z.of_nat j < i + Z.of_nat n ->
    fst (gpio_port_get_raw (default NULL (gpio_devices s !! j))) <> 0 ->
    gpio_read_ports gpio_port_get_raw s i n port_values
      = Panicked "failed to get gpio values".
Proof.
  induction n as [| n IH]; intros i port_values j Hi Hj Hfault; [lia |].
  cbn [gpio_read_ports].
  destruct (fst (gpio_port_get_raw (default NULL (gpio_devices s !! Z.to_nat i)))
            =? 0) eqn:Hret; [| reflexivity].
  cbn [negb]. apply (IH (i + 1) _ j); [lia | | exact Hfault].
  destruct (decide (Z.of_nat j = i)) as [Heq | Hne]; [| lia].
  exfalso. apply Hfault. apply Z.eqb_eq in Hret.
  by rewrite <- Heq, Nat2Z.id in Hret.
Qed.

(** C9: the two fatal conditions.  Registering a device that is not in
    a cache that already holds [GPIO_PORT_COUNT] devices panics; and
    when the read of a cached port reports a fault, reading the raw
    state panics, and so does the whole poll: neither hands a snapshot
    or an error value back. *)
Theorem fatal_conditions_panic {TouchpadData : Type}
    (PL_GPIOS : list (Z * Line.t)) (PL_GPIO_PIN PL_GPIO_FLAGS : Line.t -> Z)
    (gpio_port_get_raw : Z -> Z * Z)
    (transition_time : Z) (PL_GPIO_OUTPUT_MODES : list (Z * OutputMode.t))
    (PL_GPIO_MODE_LOCK_AVAILABLE CONFIG_PASSINGLINK_DISPLAY : bool)
    (device : Z) (s : PortCache) (gpio_indices port_values : list Z)
    (input : RawInputState) (g : Globals TouchpadData)
    (k_uptime_ticks : Z) :
  (gpio_device_count s = GPIO_PORT_COUNT ->
   ~ cached device s ->
   gpio_device_add device s
     = Panicked "ran out of cached GPIO device slots") /\
  (forall j : nat,
     Z.of_nat j < gpio_device_count s ->
     fst (gpio_port_get_raw (default NULL (gpio_devices s !! j))) <> 0 ->
     input_get_raw_state PL_GPIOS PL_GPIO_PIN PL_GPIO_FLAGS
       gpio_port_get_raw None s gpio_indices port_values input
       = Panicked "failed to get gpio values" /\
     input_get_state PL_GPIOS PL_GPIO_PIN PL_GPIO_FLAGS
       gpio_port_get_raw None transition_time PL_GPIO_OUTPUT_MODES
       PL_GPIO_MODE_LOCK_AVAILABLE CONFIG_PASSINGLINK_DISPLAY
       s gpio_indices port_values input g k_uptime_ticks
       = Panicked "failed to get gpio values").
Proof.
  split; [apply gpio_device_add_full |].
  intros j Hj Hfault.
  assert (Hraw : input_get_raw_state PL_GPIOS PL_GPIO_PIN PL_GPIO_FLAGS
                   gpio_port_get_raw None s gpio_indices port_values input
                 = Panicked "failed to get gpio values").
  { unfold input_get_raw_state.
    rewrite (gpio_read_ports_fault gpio_port_get_raw s _ 0 port_values j);
      [reflexivity | lia | lia | exact Hfault]. }
  split; [exact Hraw |].
  unfold input_get_state. by rewrite Hraw.
Qed.

Lemma fatal_conditions_panic_witness :
  gpio_device_add 50 sample_cache_full
    = Panicked "ran out of cached GPIO device slots" /\
  input_get_state sample_gpios (fun _ => 3) (fun _ => 1)
    sample_port_fault None 5 sample_modes true true
    sample_cache_full (replicate 21 0) [0; 0; 0; 0]
    RawInputState_zero sample_globals 1000
    = Panicked "failed to get gpio values".
Proof.
  pose proof (@fatal_conditions_panic Z sample_gpios (fun _ => 3) (fun _ => 1)
                sample_port_fault 5 sample_modes true true 50
                sample_cache_full (replicate 21 0) [0; 0; 0; 0]
                RawInputState_zero sample_globals 1000) as [Hadd Hread].
  split.
  - apply Hadd; [reflexivity |].
    intros (i & Hi & Hslot). simpl in Hi.
    destruct i as [| [| [| [| i]]]]; simpl in Hslot; discriminate.
  - apply (Hread 1%nat); [simpl; lia | simpl; discriminate].
Defined.

(** ** Debounce pass of the pipeline *)

Lemma input_debounce_line_get (transition_time current_tick : Z)
    (acc : RawInputState * PerLine.t ButtonHistory) (entry : Z * Line.t)
    (name : Line.t) :
  let r := input_debounce_line transition_time current_tick acc entry in
  let d := input_debounce transition_time (PerLine.get name (fst acc))
             (PerLine.get name (snd acc)) current_tick in
  PerLine.get name (fst r)
    = (if decide (name = snd entry) then fst d else PerLine.get name (fst acc))
  /\
  PerLine.get name (snd r)
    = (if decide (name = snd entry) then snd d else PerLine.get name (snd acc)).
Proof.
  unfold input_debounce_line. cbn [fst snd].
  case_decide as Hname.
  - subst name. by rewrite !PerLine_get_set_eq.
  - by rewrite !PerLine_get_set_ne.
Qed.

(** Each listed line goes through [input_debounce] with its own history;
    the members of the other lines stay as they are. *)
Lemma input_debounce_all_line (transition_time current_tick : Z)
    (PL_GPIOS : list (Z * Line.t)) :
  NoDup PL_GPIOS.*2 ->
  forall (in_ : RawInputState) (history : PerLine.t ButtonHistory)
         (name : Line.t),
    (name ∈ PL_GPIOS.*2 ->
       PerLine.get name
         (fst (input_debounce_all PL_GPIOS transition_time current_tick
                 in_ history))
       = fst (input_debounce transition_time (PerLine.get name in_)
                (PerLine.get name history) current_tick) /\
       PerLine.get name
         (snd (input_debounce_all PL_GPIOS transition_time current_tick
                 in_ history))
       = snd (input_debounce transition_time (PerLine.get name in_)
                (PerLine.get name history) current_tick)) /\
    (name ∉ PL_GPIOS.*2 ->
       PerLine.get name
         (fst (input_debounce_all PL_GPIOS transition_time current_tick
                 in_ history))
       = PerLine.get name in_ /\
       PerLine.get name
         (snd (input_debounce_all PL_GPIOS transition_time current_tick
                 in_ history))
       = PerLine.get name history).
Proof.
  unfold input_debounce_all.
  induction PL_GPIOS as [| entry rest IH]; intros Hnodup in_ history name.
  - split; [intros Hin; by apply not_elem_of_nil in Hin | done].
  - rewrite fmap_cons in *. apply NoDup_cons in Hnodup as [Hline Hrest].
    cbn [fold_left].
    pose proof (input_debounce_line_get transition_time current_tick
                  (in_, history) entry name) as Hstep.
    cbn zeta in Hstep. cbn [fst snd] in Hstep.
    destruct (input_debounce_line transition_time current_tick
                (in_, history) entry) as [in1 history1].
    cbn [fst snd] in Hstep. destruct Hstep as [Hin1 Hhistory1].
    destruct (IH Hrest in1 history1 name) as [IHin IHout].
    split.
    + intros Hin. apply elem_of_cons in Hin as [Heq | Hin].
      * rewrite decide_True in Hin1 by exact Heq.
        rewrite decide_True in Hhistory1 by exact Heq.
        subst name. destruct (IHout Hline) as [-> ->]. by split.
      * assert (Hne : name <> snd entry) by (intros ->; contradiction).
        rewrite decide_False in Hin1 by exact Hne.
        rewrite decide_False in Hhistory1 by exact Hne.
        destruct (IHin Hin) as [-> ->]. by rewrite Hin1, Hhistory1.
    + intros Hout. apply not_elem_of_cons in Hout as [Hne Hout].
      rewrite decide_False in Hin1 by exact Hne.
      rewrite decide_False in Hhistory1 by exact Hne.
      destruct (IHout Hout) as [-> ->]. by split.
Qed.

(** ** Two polls, end to end *)

(** Up and right held, no mode line asserted, the history at rest: the
    pad reads north-east and both sticks are centred. *)
Example poll_pad_north_east :
  let out := fst (fst (input_parse sample_gpios 5 sample_modes true true
                         sample_globals sample_raw_up_right 1000)) in
  InputState.dpad out = StickState.NorthEast /\
  (InputState.left_stick_x out, InputState.left_stick_y out) = (0x80, 0x80) /\
  (InputState.right_stick_x out, InputState.right_stick_y out) = (0x80, 0x80).
Proof. vm_compute. by repeat split. Qed.

(** Left held with the right-stick mode line asserted: the right stick
    is pushed to the minimum of its horizontal axis, the pad and the
    left stick rest. *)
Example poll_right_stick_left :
  let out := fst (fst (input_parse sample_gpios 5 sample_modes true true
                         sample_globals sample_raw_rs 1000)) in
  (InputState.right_stick_x out, InputState.right_stick_y out) = (0x00, 0x80) /\
  InputState.dpad out = StickState.Neutral /\
  (InputState.left_stick_x out, InputState.left_stick_y out) = (0x80, 0x80).
Proof. vm_compute. by repeat split. Qed.

(* ===================================================================== *)
(** * Part 3: further properties of the code                              *)
(* ===================================================================== *)

(** ** Debounce engine, continued *)

(** X1: the value and the history that [input_debounce] hands out are
    stable: fed back to the function, on any tick, they come out as they
    went in.  Listing a line twice, or parsing a debounced snapshot
    again, changes nothing. *)
Theorem input_debounce_stable (transition_time : Z) (v : bool)
    (h : ButtonHistory) (t t' : Z) :
  input_debounce transition_time
    (fst (input_debounce transition_time v h t))
    (snd (input_debounce transition_time v h t)) t'
  = input_debounce transition_time v h t.
Proof.
  unfold input_debounce at 2 3 4.
  destruct (Bool.eqb v (state h)) eqn:E.
  - cbn [fst snd]. unfold input_debounce. by rewrite E.
  - destruct (uint64_sub t (tick h) <? transition_time); cbn [fst snd];
      unfold input_debounce; cbn [state].
    + rewrite (eqb_false_negb v (state h) E). by rewrite Bool.eqb_reflx.
    + by rewrite Bool.eqb_reflx.
Qed.

(** X2: the tick counter may wrap.  When the current tick is below the
    recorded one, the duration is the number of ticks really elapsed
    across the overflow, and the transition is judged on that number. *)
Theorem input_debounce_wraparound (transition_time : Z) (v : bool)
    (h : ButtonHistory) (t : Z) :
  0 <= t -> t < tick h -> tick h <= uint64_max ->
  v <> state h ->
  uint64_sub t (tick h) = t + 2 ^ 64 - tick h /\
  input_debounce transition_time v h t =
    (if t + 2 ^ 64 - tick h <? transition_time
     then (negb v, h)
     else (v, {| state := v; tick := t |})).
Proof.
  intros Ht Hlt Hmax Hv.
  assert (Hsub : uint64_sub t (tick h) = t + 2 ^ 64 - tick h).
  { unfold uint64_sub, uint64_max in *.
    replace (t - tick h) with (t + 2 ^ 64 - tick h + (-1) * 2 ^ 64) by lia.
    rewrite Z.mod_add by lia. apply Z.mod_small. lia. }
  split; [exact Hsub |].
  unfold input_debounce. rewrite Hsub.
  destruct (Bool.eqb v (state h)) eqn:E; [| reflexivity].
  apply Bool.eqb_prop in E. contradiction.
Qed.

Lemma input_debounce_wraparound_witness :
  input_debounce 5 true {| state := false; tick := uint64_max - 1 |} 1
    = (false, {| state := false; tick := uint64_max - 1 |}) /\
  input_debounce 5 true {| state := false; tick := uint64_max - 1 |} 3
    = (true, {| state := true; tick := 3 |}).
Proof.
  split.
  - rewrite (proj2 (input_debounce_wraparound 5 true
               {| state := false; tick := uint64_max - 1 |} 1
               ltac:(lia) ltac:(vm_compute; reflexivity)
               ltac:(vm_compute; discriminate) ltac:(simpl; discriminate))).
    reflexivity.
  - rewrite (proj2 (input_debounce_wraparound 5 true
               {| state := false; tick := uint64_max - 1 |} 3
               ltac:(lia) ltac:(vm_compute; reflexivity)
               ltac:(vm_compute; discriminate) ltac:(simpl; discriminate))).
    reflexivity.
Defined.

Lemma ticks_nondecreasing_lower (samples : list Sample) :
  forall last : Z,
    ticks_nondecreasing last samples = true ->
    Forall (fun s : Sample => last <= snd s <= uint64_max) samples.
Proof.
  induction samples as [| [v t] rest IH]; intros last Hmono; [constructor |].
  simpl in Hmono.
  apply andb_true_iff in Hmono as [Hmono Hrest].
  apply andb_true_iff in Hmono as [Hlt Hmax].
  apply Z.leb_le in Hlt. apply Z.leb_le in Hmax.
  constructor; [simpl; lia |].
  eapply Forall_impl; [exact (IH t Hrest) |]. simpl. intros s Hs. lia.
Qed.

Lemma debounce_run_steady (transition_time : Z) (v : bool)
    (samples : list Sample) :
  forall h : ButtonHistory,
    state h = v ->
    Forall (fun s : Sample => fst s = v) samples ->
    debounce_run transition_time h samples = map (fun _ => v) samples.
Proof.
  induction samples as [| [v' t] rest IH]; intros h Hstate Hheld;
    [reflexivity |].
  apply Forall_cons in Hheld as [Hv Hrest]. simpl in Hv. subst v'.
  cbn [debounce_run map]. unfold input_debounce.
  rewrite Hstate, Bool.eqb_reflx. cbn [fst snd].
  f_equal. by apply IH.
Qed.

(** X3: the filter tracks a raw value that is held.  Over non-decreasing
    ticks, when every sample reads [v] while the history holds the other
    value, the value handed out is the old one on the polls that come
    less than [transition_time] ticks after the recorded tick, and [v]
    from the first poll at or past that threshold on. *)
Theorem debounce_tracks_held_input (transition_time : Z) (v : bool)
    (h : ButtonHistory) (samples : list Sample) :
  0 <= tick h ->
  ticks_nondecreasing (tick h) samples = true ->
  Forall (fun s : Sample => fst s = v) samples ->
  state h = negb v ->
  debounce_run transition_time h samples =
    map (fun s : Sample =>
           if snd s - tick h <? transition_time then negb v else v)
      samples.
Proof.
  intros H0 Hmono Hheld Hstate.
  assert (Hgen : forall last : Z,
             tick h <= last ->
             ticks_nondecreasing last samples = true ->
             debounce_run transition_time h samples =
               map (fun s : Sample =>
                      if snd s - tick h <? transition_time then negb v else v)
                 samples).
  { clear Hmono. induction samples as [| [v' t] rest IH];
      intros last Hlast Hmono; [reflexivity |].
    apply Forall_cons in Hheld as [Hv Hrest]. simpl in Hv. subst v'.
    pose proof (ticks_nondecreasing_lower _ _ Hmono) as Hlower.
    apply Forall_cons in Hlower as [Ht Hlater]. simpl in Ht.
    simpl in Hmono.
    apply andb_true_iff in Hmono as [_ Hmono].
    cbn [debounce_run map snd]. unfold input_debounce.
    rewrite Hstate.
    replace (Bool.eqb v (negb v)) with false by (by destruct v).
    rewrite uint64_sub_exact by lia.
    destruct (t - tick h <? transition_time) eqn:Hd; cbn [fst snd].
    - f_equal. apply (IH Hrest t); [lia | exact Hmono].
    - f_equal.
      rewrite (debounce_run_steady transition_time v rest
                 {| state := v; tick := t |} eq_refl Hrest).
      apply map_ext_in. intros s Hs.
      apply Z.ltb_ge in Hd.
      pose proof (ticks_nondecreasing_lower _ _ Hmono) as Hlow.
      rewrite List.Forall_forall in Hlow. specialize (Hlow s Hs).
      simpl in Hlow.
      replace (snd s - tick h <? transition_time) with false;
        [reflexivity |].
      symmetry. apply Z.ltb_ge. lia. }
  apply (Hgen (tick h)); [lia | exact Hmono].
Qed.

Lemma debounce_tracks_held_input_witness :
  debounce_run 5 noisy_history held_samples
    = [false; false; true; true; true].
Proof.
  rewrite (debounce_tracks_held_input 5 true noisy_history held_samples).
  - reflexivity.
  - simpl. lia.
  - reflexivity.
  - unfold held_samples. repeat constructor.
  - reflexivity.
Defined.

(** ** Stick synthesizer, continued *)

(** X4: on the sign pairs the compass mapping loses nothing: two pairs
    with the same compass state are the same pair. *)
Theorem stick_state_from_x_y_injective (h v h' v' : Z) :
  -1 <= h <= 1 -> -1 <= v <= 1 -> -1 <= h' <= 1 -> -1 <= v' <= 1 ->
  stick_state_from_x_y h v = stick_state_from_x_y h' v' ->
  h = h' /\ v = v'.
Proof.
  intros Hh Hv Hh' Hv'.
  assert (Eh : h = -1 \/ h = 0 \/ h = 1) by lia.
  assert (Ev : v = -1 \/ v = 0 \/ v = 1) by lia.
  assert (Eh' : h' = -1 \/ h' = 0 \/ h' = 1) by lia.
  assert (Ev' : v' = -1 \/ v' = 0 \/ v' = 1) by lia.
  destruct Eh as [-> | [-> | ->]], Ev as [-> | [-> | ->]],
           Eh' as [-> | [-> | ->]], Ev' as [-> | [-> | ->]];
    vm_compute; intros Heq; first [discriminate Heq | by split].
Qed.

Lemma stick_state_from_x_y_injective_witness :
  1 = 1 /\ -1 = -1.
Proof.
  apply (stick_state_from_x_y_injective 1 (-1) 1 (-1));
    [lia | lia | lia | lia | reflexivity].
Defined.

(** X5: the compass state is Neutral exactly off the eight direction
    pairs: at rest, or when a coordinate is not a sign at all. *)
Theorem stick_state_from_x_y_neutral (horizontal vertical : Z) :
  stick_state_from_x_y horizontal vertical = StickState.Neutral <->
  (horizontal = 0 /\ vertical = 0) \/
  horizontal < -1 \/ 1 < horizontal \/ vertical < -1 \/ 1 < vertical.
Proof.
  unfold stick_state_from_x_y.
  destruct (Z.eqb_spec vertical (-1)), (Z.eqb_spec vertical 0),
           (Z.eqb_spec vertical 1), (Z.eqb_spec horizontal (-1)),
           (Z.eqb_spec horizontal 0), (Z.eqb_spec horizontal 1);
    cbn [andb]; split; intros H; try discriminate H; try lia;
    try reflexivity.
Qed.

(** X6: [stick_scale] saturates.  Its result is a byte, it is the centre
    0x80 for the sign 0 only, and it never decreases when the sign
    grows. *)
Theorem stick_scale_saturates (a b : Z) :
  0x00 <= stick_scale a <= 0xFF /\
  (stick_scale a = 0x80 <-> a = 0) /\
  (a <= b -> stick_scale a <= stick_scale b).
Proof.
  unfold stick_scale.
  destruct (Z.ltb_spec a 0), (Z.eqb_spec a 0),
           (Z.ltb_spec b 0), (Z.eqb_spec b 0); lia.
Qed.

Lemma stick_scale_saturates_witness :
  stick_scale (-7) <= stick_scale 3.
Proof.
  apply (proj2 (proj2 (stick_scale_saturates (-7) 3))). lia.
Defined.

(** ** Pipeline, continued *)

Lemma input_parse_debounced_history {TouchpadData : Type}
    (PL_GPIOS : list (Z * Line.t)) (transition_time : Z)
    (lock display : bool) (g : Globals TouchpadData)
    (in_ : RawInputState) (k_uptime_ticks : Z) :
  button_history
    (snd (input_parse_debounced PL_GPIOS transition_time lock display
            g in_ k_uptime_ticks))
  = snd (input_debounce_all PL_GPIOS transition_time
           (to_uint64 k_uptime_ticks) in_ (button_history g)).
Proof. unfold input_parse_debounced. by destruct lock. Qed.

(** X7: the output is wholly at rest exactly when both axes of the
    debounced snapshot are balanced, whatever the mode: the pad is
    Neutral and both sticks are at (0x80, 0x80) if and only if up equals
    down and left equals right. *)
Theorem input_parse_rest_iff_balanced {TouchpadData : Type}
    (PL_GPIOS : list (Z * Line.t)) (transition_time : Z)
    (PL_GPIO_OUTPUT_MODES : list (Z * OutputMode.t))
    (PL_GPIO_MODE_LOCK_AVAILABLE CONFIG_PASSINGLINK_DISPLAY : bool)
    (g : Globals TouchpadData) (in_ : RawInputState)
    (k_uptime_ticks : Z) :
  let r := input_parse PL_GPIOS transition_time PL_GPIO_OUTPUT_MODES
             PL_GPIO_MODE_LOCK_AVAILABLE CONFIG_PASSINGLINK_DISPLAY
             g in_ k_uptime_ticks in
  let out := fst (fst r) in
  let in' := snd (fst r) in
  (InputState.dpad out = StickState.Neutral /\
   InputState.left_stick_x out = 0x80 /\
   InputState.left_stick_y out = 0x80 /\
   InputState.right_stick_x out = 0x80 /\
   InputState.right_stick_y out = 0x80) <->
  (PerLine.stick_up in' = PerLine.stick_down in' /\
   PerLine.stick_left in' = PerLine.stick_right in').
Proof.
  intros r out in'. subst r out in'. unfold input_parse.
  cbn [fst snd InputState.dpad InputState.left_stick_x
       InputState.left_stick_y InputState.right_stick_x
       InputState.right_stick_y].
  generalize (fst (input_parse_debounced PL_GPIOS transition_time
                     PL_GPIO_MODE_LOCK_AVAILABLE CONFIG_PASSINGLINK_DISPLAY
                     g in_ k_uptime_ticks)).
  intros in'. unfold stick_horizontal_of, stick_vertical_of.
  destruct (input_parse_output_mode PL_GPIO_OUTPUT_MODES in'),
           (PerLine.stick_up in'), (PerLine.stick_down in'),
           (PerLine.stick_left in'), (PerLine.stick_right in');
    vm_compute; split; intros H;
    repeat match goal with
           | H : _ /\ _ |- _ => destruct H
           end;
    first [discriminate | by repeat split].
Qed.

Lemma input_debounce_fst_state (transition_time : Z) (v : bool)
    (h : ButtonHistory) (t : Z) :
  fst (input_debounce transition_time v h t)
    = state (snd (input_debounce transition_time v h t)) /\
  (snd (input_debounce transition_time v h t) = h \/
   snd (input_debounce transition_time v h t)
     = {| state := v; tick := t |}).
Proof.
  unfold input_debounce.
  destruct (Bool.eqb v (state h)) eqn:E.
  - cbn [fst snd]. split; [by apply Bool.eqb_prop | by left].
  - destruct (uint64_sub t (tick h) <? transition_time); cbn [fst snd state].
    + split; [by apply eqb_false_negb | by left].
    + split; [reflexivity | by right].
Qed.

(** X8: the debounce pass treats the lines one by one.  When no line is
    listed twice, the member of a listed line comes out of [input_parse]
    as [input_debounce] makes it from that line's raw value and that
    line's history alone, and the members of the lines that are not
    listed are left as they were, in the snapshot and in the
    histories. *)
Theorem input_parse_debounces_each_line {TouchpadData : Type}
    (PL_GPIOS : list (Z * Line.t)) (transition_time : Z)
    (PL_GPIO_OUTPUT_MODES : list (Z * OutputMode.t))
    (PL_GPIO_MODE_LOCK_AVAILABLE CONFIG_PASSINGLINK_DISPLAY : bool)
    (g : Globals TouchpadData) (in_ : RawInputState)
    (k_uptime_ticks : Z) (name : Line.t) :
  NoDup PL_GPIOS.*2 ->
  let r := input_parse PL_GPIOS transition_time PL_GPIO_OUTPUT_MODES
             PL_GPIO_MODE_LOCK_AVAILABLE CONFIG_PASSINGLINK_DISPLAY
             g in_ k_uptime_ticks in
  let d := input_debounce transition_time (PerLine.get name in_)
             (PerLine.get name (button_history g))
             (to_uint64 k_uptime_ticks) in
  (name ∈ PL_GPIOS.*2 ->
     PerLine.get name (snd (fst r)) = fst d /\
     PerLine.get name (button_history (snd r)) = snd d) /\
  (name ∉ PL_GPIOS.*2 ->
     PerLine.get name (snd (fst r)) = PerLine.get name in_ /\
     PerLine.get name (button_history (snd r))
       = PerLine.get name (button_history g)).
Proof.
  intros Hnodup r d. subst r d. unfold input_parse. cbn [fst snd].
  rewrite input_parse_debounced_history.
  unfold input_parse_debounced. cbn [fst].
  exact (input_debounce_all_line transition_time (to_uint64 k_uptime_ticks)
           PL_GPIOS Hnodup in_ (button_history g) name).
Qed.

Lemma sample_gpios_NoDup : NoDup sample_gpios.*2.
Proof. apply (bool_decide_unpack _). vm_compute. exact I. Defined.

Lemma input_parse_debounces_each_line_witness :
  let r := input_parse sample_gpios 5 sample_modes true true
             sample_globals sample_raw_rs 1000 in
  (PerLine.stick_left (snd (fst r)) = true /\
   PerLine.stick_left (button_history (snd r))
     = {| state := true; tick := 1000 |}) /\
  (PerLine.mode_dpad (snd (fst r)) = false /\
   PerLine.mode_dpad (button_history (snd r)) = ButtonHistory_zero).
Proof.
  split.
  - apply (proj1 (input_parse_debounces_each_line sample_gpios 5
                    sample_modes true true sample_globals sample_raw_rs 1000
                    Line.stick_left sample_gpios_NoDup)).
    apply (bool_decide_unpack _). vm_compute. exact I.
  - apply (proj2 (input_parse_debounces_each_line sample_gpios 5
                    sample_modes true true sample_globals sample_raw_rs 1000
                    Line.mode_dpad sample_gpios_NoDup)).
    apply (bool_decide_unpack _). vm_compute. exact I.
Defined.

(** X9: what [input_parse] leaves in the snapshot is what the histories
    hold.  For every listed line, the debounced value equals the state
    of the line's history after the poll, and that history is either the
    one from before the poll or the raw value stamped with the tick of
    this poll. *)
Theorem input_parse_snapshot_matches_history {TouchpadData : Type}
    (PL_GPIOS : list (Z * Line.t)) (transition_time : Z)
    (PL_GPIO_OUTPUT_MODES : list (Z * OutputMode.t))
    (PL_GPIO_MODE_LOCK_AVAILABLE CONFIG_PASSINGLINK_DISPLAY : bool)
    (g : Globals TouchpadData) (in_ : RawInputState)
    (k_uptime_ticks : Z) (name : Line.t) :
  NoDup PL_GPIOS.*2 ->
  name ∈ PL_GPIOS.*2 ->
  let r := input_parse PL_GPIOS transition_time PL_GPIO_OUTPUT_MODES
             PL_GPIO_MODE_LOCK_AVAILABLE CONFIG_PASSINGLINK_DISPLAY
             g in_ k_uptime_ticks in
  PerLine.get name (snd (fst r))
    = state (PerLine.get name (button_history (snd r))) /\
  (PerLine.get name (button_history (snd r))
     = PerLine.get name (button_history g) \/
   PerLine.get name (button_history (snd r))
     = {| state := PerLine.get name in_;
          tick := to_uint64 k_uptime_ticks |}).
Proof.
  intros Hnodup Hin r. subst r. unfold input_parse. cbn [fst snd].
  rewrite input_parse_debounced_history.
  unfold input_parse_debounced. cbn [fst].
  destruct (input_debounce_all_line transition_time
              (to_uint64 k_uptime_ticks) PL_GPIOS Hnodup in_
              (button_history g) name) as [Hlisted _].
  destruct (Hlisted Hin) as [-> ->].
  apply input_debounce_fst_state.
Qed.

Lemma input_parse_snapshot_matches_history_witness :
  let r := input_parse sample_gpios 5 sample_modes true true
             sample_globals sample_raw_rs 1000 in
  PerLine.mode_rs (snd (fst r))
    = state (PerLine.mode_rs (button_history (snd r))) /\
  (PerLine.mode_rs (button_history (snd r))
     = PerLine.mode_rs (button_history sample_globals) \/
   PerLine.mode_rs (button_history (snd r))
     = {| state := PerLine.mode_rs sample_raw_rs; tick := to_uint64 1000 |}).
Proof.
  apply (input_parse_snapshot_matches_history sample_gpios 5 sample_modes
           true true sample_globals sample_raw_rs 1000 Line.mode_rs
           sample_gpios_NoDup).
  apply (bool_decide_unpack _). vm_compute. exact I.
Defined.

(** ** Lock gate, continued *)

Lemma last_cons_cons {A : Type} (x y : A) (l : list A) (d d' : A) :
  List.last (x :: y :: l) d = List.last (y :: l) d'.
Proof.
  revert x y. induction l as [| z l IH]; intros x y; [reflexivity |].
  change (List.last (x :: y :: z :: l) d) with (List.last (y :: z :: l) d).
  change (List.last (y :: z :: l) d') with (List.last (z :: l) d').
  apply IH.
Qed.

Lemma alternating_snoc (l : list bool) :
  forall (first x : bool),
    alternating first l ->
    x = negb (List.last l (negb first)) ->
    alternating first (l ++ [x]).
Proof.
  induction l as [| b rest IH]; intros first x Halt Hx.
  - simpl in *. rewrite Bool.negb_involutive in Hx. by split.
  - destruct Halt as [Hb Hrest]. cbn [app alternating]. split; [exact Hb |].
    apply IH; [exact Hrest |]. rewrite Hx.
    destruct rest as [| c rest'].
    + simpl. by rewrite Hb, Bool.negb_involutive.
    + f_equal. apply last_cons_cons.
Qed.

(** The invariant behind the lock indicator: the calls alternate from
    [true] on and the latest one shows the current lock. *)
Lemma input_set_locked_in_sync {TouchpadData : Type} (locked : bool)
    (g : Globals TouchpadData) :
  alternating true (display_locked_calls g) ->
  List.last (display_locked_calls g) false = input_locked g ->
  alternating true (display_locked_calls (input_set_locked true locked g)) /\
  List.last (display_locked_calls (input_set_locked true locked g)) false
    = input_locked (input_set_locked true locked g).
Proof.
  intros Halt Hlast. unfold input_set_locked.
  cbn [display_locked_calls input_locked andb].
  destruct (Bool.eqb locked (input_locked g)) eqn:E; cbn [negb].
  - apply Bool.eqb_prop in E. subst locked. by split.
  - split; [| apply List.last_last].
    apply alternating_snoc; [exact Halt |].
    cbn [negb]. rewrite Hlast.
    destruct locked, (input_locked g); simpl in *; congruence.
Qed.

Lemma input_set_locked_all_in_sync {TouchpadData : Type} (vs : list bool) :
  forall g0 : Globals TouchpadData,
    alternating true (display_locked_calls g0) ->
    List.last (display_locked_calls g0) false = input_locked g0 ->
    input_locked (input_set_locked_all true vs g0)
      = List.last vs (input_locked g0) /\
    alternating true
      (display_locked_calls (input_set_locked_all true vs g0)) /\
    List.last (display_locked_calls (input_set_locked_all true vs g0)) false
      = input_locked (input_set_locked_all true vs g0).
Proof.
  induction vs as [| v rest IH]; intros g0 Halt Hlast.
  - by repeat split.
  - cbn [input_set_locked_all].
    destruct (input_set_locked_in_sync v g0 Halt Hlast) as [Halt' Hlast'].
    destruct (IH _ Halt' Hlast') as (Hfinal & Halt'' & Hlast'').
    split; [| by split].
    rewrite Hfinal. cbn [input_set_locked input_locked].
    destruct rest as [| w rest']; [reflexivity |].
    symmetry. apply last_cons_cons.
Qed.

(** X10: the lock indicator follows the lock.  From start-up (unlocked,
    the display never called), with the display compiled in, after any
    series of [input_set_locked] the lock is the last value set, the
    calls to [display_set_locked] alternate true, false, true, ... with
    no call repeated, and the latest call shows the current lock. *)
Theorem lock_indicator_in_sync {TouchpadData : Type}
    (values : list bool) (g : Globals TouchpadData) :
  input_locked g = false ->
  display_locked_calls g = [] ->
  let g' := input_set_locked_all true values g in
  input_get_locked g' = List.last values false /\
  alternating true (display_locked_calls g') /\
  List.last (display_locked_calls g') false = input_get_locked g'.
Proof.
  intros Hlocked Hcalls g'. subst g'. unfold input_get_locked.
  rewrite <- Hlocked at 1.
  apply input_set_locked_all_in_sync; rewrite Hcalls;
    [exact I | by rewrite Hlocked].
Qed.

Lemma lock_indicator_in_sync_witness :
  let g' := input_set_locked_all true [true; true; false; true]
              sample_globals in
  input_get_locked g' = true /\
  alternating true (display_locked_calls g') /\
  List.last (display_locked_calls g') false = input_get_locked g'.
Proof.
  apply (lock_indicator_in_sync [true; true; false; true] sample_globals);
    reflexivity.
Defined.

(** ** Port cache, continued *)

Lemma gpio_device_add_keeps (s s' : PortCache) (device i : Z) :
  cache_wf s ->
  gpio_device_add device s = Returned (i, s') ->
  gpio_device_count s <= gpio_device_count s' /\
  forall (j : nat) (d : Z),
    Z.of_nat j < gpio_device_count s ->
    gpio_devices s !! j = Some d ->
    gpio_devices s' !! j = Some d.
Proof.
  intros Hwf Hadd.
  destruct (gpio_device_add_inv s s' device i Hwf Hadd)
    as [[-> _] | (_ & Hroom & _ & ->)]; [split; [lia | done] |].
  cbn [gpio_devices gpio_device_count]. split; [lia |].
  intros j d Hj Hd. rewrite list_lookup_insert_ne by lia. exact Hd.
Qed.

Lemma gpio_device_add_all_keeps (handles : list Z) :
  forall s s' : PortCache,
    cache_wf s ->
    gpio_device_add_all handles s = Returned s' ->
    gpio_device_count s <= gpio_device_count s' /\
    forall (j : nat) (d : Z),
      Z.of_nat j < gpio_device_count s ->
      gpio_devices s !! j = Some d ->
      gpio_devices s' !! j = Some d.
Proof.
  induction handles as [| h rest IH]; intros s s' Hwf Hall; simpl in Hall.
  - injection Hall as <-. split; [lia | done].
  - destruct (gpio_device_add h s) as [[i s1] | msg] eqn:Hadd;
      simpl in Hall; [| discriminate].
    destruct (gpio_device_add_keeps s s1 h i Hwf Hadd) as [Hle Hkeep].
    destruct (IH s1 s' (gpio_device_add_wf s s1 h i Hwf Hadd) Hall)
      as [Hle' Hkeep'].
    split; [lia |].
    intros j d Hj Hd. apply Hkeep'; [lia |]. by apply Hkeep.
Qed.

(** X11: indices handed out stay good.  Whatever is registered later,
    a device keeps the slot it was given, the count never goes down nor
    past [GPIO_PORT_COUNT], and registering the device again returns the
    same index. *)
Theorem port_cache_keeps_indices (before after : list Z)
    (s s' : PortCache) :
  gpio_device_add_all before PortCache_zero = Returned s ->
  gpio_device_add_all after s = Returned s' ->
  gpio_device_count s <= gpio_device_count s' <= GPIO_PORT_COUNT /\
  forall (j : nat) (d : Z),
    Z.of_nat j < gpio_device_count s ->
    gpio_devices s !! j = Some d ->
    gpio_devices s' !! j = Some d /\
    gpio_device_add d s' = Returned (Z.of_nat j, s').
Proof.
  intros Hbefore Hafter.
  pose proof (gpio_device_add_all_wf before PortCache_zero s
                cache_wf_zero Hbefore) as Hwf.
  pose proof (gpio_device_add_all_wf after s s' Hwf Hafter) as Hwf'.
  destruct (gpio_device_add_all_keeps after s s' Hwf Hafter) as [Hle Hkeep].
  pose proof (wf_count s' Hwf') as Hcount.
  split; [lia |].
  intros j d Hj Hd. split; [by apply Hkeep |].
  apply gpio_device_add_cached; [exact Hwf' | lia | by apply Hkeep].
Qed.

Lemma port_cache_keeps_indices_witness :
  gpio_devices sample_cache_full !! 1%nat = Some 20 /\
  gpio_device_add 20 sample_cache_full = Returned (1, sample_cache_full).
Proof.
  apply (proj2 (port_cache_keeps_indices [10; 20; 10] [30; 20; 40]
                  sample_cache_two sample_cache_full
                  eq_refl eq_refl) 1%nat 20).
  - simpl. lia.
  - reflexivity.
Defined.

Lemma cached_take (s : PortCache) (d : Z) :
  0 <= gpio_device_count s ->
  cached d s <-> d ∈ take (Z.to_nat (gpio_device_count s)) (gpio_devices s).
Proof.
  intros Hcount. rewrite elem_of_take. unfold cached.
  split; intros (i & H1 & H2); exists i; split; first [done | lia].
Qed.

Lemma cache_count_distinct (s : PortCache) (seen : list Z) :
  cache_wf s ->
  (forall d : Z, cached d s <-> d ∈ seen) ->
  Z.of_nat (length (remove_dups seen)) = gpio_device_count s.
Proof.
  intros Hwf Hseen.
  pose proof (wf_count s Hwf) as Hcount.
  pose proof (wf_length s Hwf) as Hlen.
  assert (Hperm : take (Z.to_nat (gpio_device_count s)) (gpio_devices s)
                  ≡ₚ remove_dups seen).
  { apply NoDup_Permutation.
    - apply NoDup_alt. intros i j x Hi Hj.
      apply lookup_take_Some in Hi as [Hi Hilt].
      apply lookup_take_Some in Hj as [Hj Hjlt].
      apply (wf_distinct s Hwf i j x); [lia | lia | done | done].
    - apply NoDup_remove_dups.
    - intros d. rewrite elem_of_remove_dups, <- Hseen.
      symmetry. apply cached_take. lia. }
  rewrite <- Hperm, length_take.
  unfold GPIO_PORT_COUNT in *. lia.
Qed.

Lemma cached_after_fresh (s : PortCache) (device d : Z) :
  cache_wf s ->
  gpio_device_count s < GPIO_PORT_COUNT ->
  cached d {| gpio_devices :=
                <[Z.to_nat (gpio_device_count s) := device]> (gpio_devices s);
              gpio_device_count := gpio_device_count s + 1 |}
  <-> cached d s \/ d = device.
Proof.
  intros Hwf Hroom.
  pose proof (wf_count s Hwf) as Hcount.
  pose proof (wf_length s Hwf) as Hlen.
  unfold cached. cbn [gpio_devices gpio_device_count]. split.
  - intros (i & Hi & Hd).
    destruct (decide (i = Z.to_nat (gpio_device_count s))) as [-> | Hne].
    + right. rewrite list_lookup_insert_eq in Hd
        by (unfold GPIO_PORT_COUNT in *; lia). congruence.
    + left. exists i. rewrite list_lookup_insert_ne in Hd by congruence.
      split; [lia | exact Hd].
  - intros [(i & Hi & Hd) | ->].
    + exists i. split; [lia |]. by rewrite list_lookup_insert_ne by lia.
    + exists (Z.to_nat (gpio_device_count s)). split; [lia |].
      apply list_lookup_insert_eq. unfold GPIO_PORT_COUNT in *. lia.
Qed.

Lemma remove_dups_length_mono (l k : list Z) :
  (forall x, x ∈ l -> x ∈ k) ->
  (length (remove_dups l) <= length (remove_dups k))%nat.
Proof.
  intros Hsub. apply submseteq_length, NoDup_submseteq.
  - apply NoDup_remove_dups.
  - intros x. rewrite !elem_of_remove_dups. apply Hsub.
Qed.

Lemma gpio_device_add_all_capacity_gen (handles : list Z) :
  forall (s : PortCache) (seen : list Z),
    cache_wf s ->
    (forall d : Z, cached d s <-> d ∈ seen) ->
    Forall (fun d => d <> NULL) handles ->
    ((length (remove_dups (seen ++ handles)) <= 4)%nat ->
       exists s' : PortCache,
         gpio_device_add_all handles s = Returned s' /\
         cache_wf s' /\
         forall d : Z, cached d s' <-> d ∈ seen ++ handles) /\
    ((4 < length (remove_dups (seen ++ handles)))%nat ->
       gpio_device_add_all handles s
         = Panicked "ran out of cached GPIO device slots").
Proof.
  induction handles as [| h rest IH]; intros s seen Hwf Hseen Hnonnull.
  - rewrite app_nil_r. split.
    + intros _. exists s.
      split; [reflexivity | split; [exact Hwf | exact Hseen]].
    + intros Hmany. exfalso.
      pose proof (cache_count_distinct s seen Hwf Hseen) as Hcount.
      pose proof (wf_count s Hwf) as Hbound.
      unfold GPIO_PORT_COUNT in *. lia.
  - apply Forall_cons in Hnonnull as [Hh Hrest].
    pose proof (wf_count s Hwf) as Hbound.
    pose proof (cache_count_distinct s seen Hwf Hseen) as Hcount.
    replace (seen ++ h :: rest) with ((seen ++ [h]) ++ rest)
      by (by rewrite <- app_assoc).
    cbn [gpio_device_add_all].
    destruct (decide (h ∈ seen)) as [Hin | Hout].
    + apply Hseen in Hin as Hcached. destruct Hcached as (i & Hi & Hslot).
      rewrite (gpio_device_add_cached s h i Hwf Hi Hslot).
      cbn [mbind outcome_bind snd].
      apply IH; [exact Hwf | | exact Hrest].
      intros d. rewrite Hseen, elem_of_app, list_elem_of_singleton.
      split; [by left | intros [? | ->]; done].
    + assert (Hfresh : ~ cached h s) by (by rewrite Hseen).
      destruct (decide (gpio_device_count s < GPIO_PORT_COUNT))
        as [Hroom | Hfull].
      * rewrite (gpio_device_add_fresh s h Hwf Hh Hfresh Hroom).
        cbn [mbind outcome_bind snd].
        apply IH; [| | exact Hrest].
        -- eapply gpio_device_add_wf; [exact Hwf |].
           exact (gpio_device_add_fresh s h Hwf Hh Hfresh Hroom).
        -- intros d. rewrite cached_after_fresh by done.
           rewrite Hseen, elem_of_app, list_elem_of_singleton. done.
      * rewrite (gpio_device_add_full s h ltac:(lia) Hfresh).
        cbn [mbind outcome_bind].
        split; [| done].
        intros Hfew. exfalso.
        assert (Hfive : (length (remove_dups (h :: seen))
                         <= length (remove_dups ((seen ++ [h]) ++ rest)))%nat).
        { apply remove_dups_length_mono. intros x Hx.
          rewrite !elem_of_app, list_elem_of_singleton.
          apply elem_of_cons in Hx as [-> | Hx]; [left; by right | by do 2 left]. }
        cbn [remove_dups] in Hfive. unfold decide_rel in Hfive.
        destruct (list_elem_of_dec h seen) as [Hyes | _]; [contradiction |].
        cbn [length] in Hfive. unfold GPIO_PORT_COUNT in *. lia.
Qed.

(** X12: the cache holds [GPIO_PORT_COUNT] distinct devices and no
    more.  A series of registrations of non-null handles returns exactly
    when it names at most four distinct handles; the count is then the
    number of distinct handles and the cached devices are the handles
    registered.  With five distinct handles or more it panics. *)
Theorem port_cache_capacity (handles : list Z) :
  Forall (fun d => d <> NULL) handles ->
  ((length (remove_dups handles) <= 4)%nat ->
     exists s : PortCache,
       gpio_device_add_all handles PortCache_zero = Returned s /\
       gpio_device_count s = Z.of_nat (length (remove_dups handles)) /\
       forall d : Z, cached d s <-> d ∈ handles) /\
  ((4 < length (remove_dups handles))%nat ->
     gpio_device_add_all handles PortCache_zero
       = Panicked "ran out of cached GPIO device slots").
Proof.
  intros Hnonnull.
  assert (Hempty : forall d : Z, cached d PortCache_zero <-> d ∈ @nil Z).
  { intros d. split; [| by intros ?%not_elem_of_nil].
    intros (i & Hi & _). simpl in Hi. lia. }
  destruct (gpio_device_add_all_capacity_gen handles PortCache_zero []
              cache_wf_zero Hempty Hnonnull) as [Hfew Hmany].
  rewrite app_nil_l in *.
  split; [| exact Hmany].
  intros Hle. destruct (Hfew Hle) as (s & Hall & Hwf & Hseen).
  exists s. split; [exact Hall |]. split; [| exact Hseen].
  symmetry. by apply cache_count_distinct.
Qed.

Lemma port_cache_capacity_witness :
  (exists s : PortCache,
     gpio_device_add_all [10; 20; 10; 30] PortCache_zero = Returned s /\
     gpio_device_count s = 3 /\
     forall d : Z, cached d s <-> d ∈ [10; 20; 10; 30]) /\
  gpio_device_add_all [10; 20; 30; 40; 20; 50] PortCache_zero
    = Panicked "ran out of cached GPIO device slots".
Proof.
  split.
  - apply (proj1 (port_cache_capacity [10; 20; 10; 30]
                    ltac:(repeat constructor; unfold NULL; lia))).
    vm_compute. lia.
  - apply (proj2 (port_cache_capacity [10; 20; 30; 40; 20; 50]
                    ltac:(repeat constructor; unfold NULL; lia))).
    vm_compute. lia.
Defined.

(** ** Start-up, continued *)

Section InitProperties.

Variable PL_GPIO_COUNT : Z.
Variable device_get_binding : Line.t -> Z.
Variable gpio_pin_configure : Z -> Line.t -> Z.

Lemma input_gpio_init_line_binds (acc : PortCache * list Z)
    (entry : Z * Line.t) :
  line_binds device_get_binding gpio_pin_configure entry ->
  input_gpio_init_line PL_GPIO_COUNT device_get_binding gpio_pin_configure
    acc entry
  = (r ← gpio_device_add (device_get_binding (snd entry)) (fst acc);
     mret (snd r,
           gpio_indices_store PL_GPIO_COUNT (fst entry) (fst r) (snd acc))).
Proof.
  intros [Hbind Hconf]. unfold input_gpio_init_line.
  apply Z.eqb_neq in Hbind. rewrite Hbind, Hconf. reflexivity.
Qed.

Lemma input_gpio_init_line_fails (acc : PortCache * list Z)
    (entry : Z * Line.t) :
  ~ line_binds device_get_binding gpio_pin_configure entry ->
  exists msg : string,
    input_gpio_init_line PL_GPIO_COUNT device_get_binding gpio_pin_configure
      acc entry
    = Panicked msg.
Proof.
  intros Hbad. unfold input_gpio_init_line.
  destruct (Z.eqb_spec (device_get_binding (snd entry)) NULL) as [Hnull | Hbind];
    [by eexists |].
  destruct (Z.eqb_spec (gpio_pin_configure (device_get_binding (snd entry))
                          (snd entry)) 0) as [Hconf | Hconf];
    [| by eexists].
  exfalso. apply Hbad. by split.
Qed.

Lemma input_gpio_init_lines_fatal (entries : list (Z * Line.t)) :
  Exists (fun entry => ~ line_binds device_get_binding gpio_pin_configure entry) entries ->
  forall acc : PortCache * list Z,
    exists msg : string,
      input_gpio_init_lines PL_GPIO_COUNT device_get_binding
        gpio_pin_configure entries acc
      = Panicked msg.
Proof.
  induction entries as [| e rest IH]; intros Hbad acc.
  - by apply Exists_nil in Hbad.
  - cbn [input_gpio_init_lines].
    destruct (input_gpio_init_line PL_GPIO_COUNT device_get_binding
                gpio_pin_configure acc e) as [acc' | msg] eqn:Hline.
    + cbn [mbind outcome_bind].
      apply Exists_cons in Hbad as [Hhead | Htail]; [| by apply IH].
      destruct (input_gpio_init_line_fails acc e Hhead) as [msg Hmsg].
      congruence.
    + by exists msg.
Qed.

(** As far as the cache goes, a start-up whose lines all bind is the
    series of registrations of their devices. *)
Lemma input_gpio_init_lines_cache (entries : list (Z * Line.t)) :
  Forall (line_binds device_get_binding gpio_pin_configure) entries ->
  forall acc : PortCache * list Z,
    match input_gpio_init_lines PL_GPIO_COUNT device_get_binding
            gpio_pin_configure entries acc with
    | Returned acc' =>
        gpio_device_add_all
          (map (fun entry => device_get_binding (snd entry)) entries) (fst acc)
        = Returned (fst acc')
    | Panicked msg =>
        gpio_device_add_all
          (map (fun entry => device_get_binding (snd entry)) entries) (fst acc)
        = Panicked msg
    end.
Proof.
  induction 1 as [| e rest He _ IH]; intros acc; [reflexivity |].
  cbn [input_gpio_init_lines map gpio_device_add_all].
  rewrite (input_gpio_init_line_binds acc e He).
  destruct (gpio_device_add (device_get_binding (snd e)) (fst acc))
    as [[i s1] | msg]; cbn [mbind outcome_bind mret outcome_ret fst snd];
    [| reflexivity].
  exact (IH (s1, gpio_indices_store PL_GPIO_COUNT (fst e) i (snd acc))).
Qed.

Lemma cached_zero (d : Z) : cached d PortCache_zero <-> d ∈ @nil Z.
Proof.
  split; [| by intros ?%not_elem_of_nil].
  intros (i & Hi & _). simpl in Hi. lia.
Qed.

(** X13: a line that cannot be brought up is fatal.  When some listed
    line has no device, or its pin fails to configure,
    [input_gpio_init] panics: it never returns a cache built from the
    lines that did bind. *)
Theorem input_gpio_init_fatal (PL_GPIOS : list (Z * Line.t)) :
  Exists (fun entry => ~ line_binds device_get_binding gpio_pin_configure entry) PL_GPIOS ->
  exists msg : string,
    input_gpio_init PL_GPIOS PL_GPIO_COUNT device_get_binding
      gpio_pin_configure
    = Panicked msg.
Proof.
  intros Hbad. unfold input_gpio_init.
  by apply input_gpio_init_lines_fatal.
Qed.

(** X14: when every listed line binds and configures, start-up depends
    on the number of distinct devices alone.  With at most four of them
    [input_gpio_init] returns: [gpio_device_count] is their number and
    the cache holds exactly the devices of the lines.  With more than
    four it panics. *)
Theorem input_gpio_init_returns (PL_GPIOS : list (Z * Line.t)) :
  Forall (line_binds device_get_binding gpio_pin_configure) PL_GPIOS ->
  let devices := map (fun entry => device_get_binding (snd entry)) PL_GPIOS in
  ((length (remove_dups devices) <= 4)%nat ->
     exists (s : PortCache) (gpio_indices : list Z),
       input_gpio_init PL_GPIOS PL_GPIO_COUNT device_get_binding
         gpio_pin_configure = Returned (s, gpio_indices) /\
       gpio_device_count s = Z.of_nat (length (remove_dups devices)) /\
       forall d : Z, cached d s <-> d ∈ devices) /\
  ((4 < length (remove_dups devices))%nat ->
     input_gpio_init PL_GPIOS PL_GPIO_COUNT device_get_binding
       gpio_pin_configure
       = Panicked "ran out of cached GPIO device slots").
Proof.
  intros Hbinds devices.
  assert (Hnonnull : Forall (fun d => d <> NULL) devices).
  { subst devices. apply Forall_map.
    eapply Forall_impl; [exact Hbinds |]. by intros e [Hb _]. }
  destruct (gpio_device_add_all_capacity_gen devices PortCache_zero []
              cache_wf_zero cached_zero Hnonnull) as [Hfew Hmany].
  rewrite app_nil_l in *.
  pose proof (input_gpio_init_lines_cache PL_GPIOS Hbinds
                (PortCache_zero, replicate (Z.to_nat PL_GPIO_COUNT) 0))
    as Hcache.
  unfold input_gpio_init.
  destruct (input_gpio_init_lines PL_GPIO_COUNT device_get_binding
              gpio_pin_configure PL_GPIOS
              (PortCache_zero, replicate (Z.to_nat PL_GPIO_COUNT) 0))
    as [[s idx] | msg]; cbn [fst snd] in Hcache; fold devices in Hcache.
  - split.
    + intros Hle. destruct (Hfew Hle) as (s' & Hall' & Hwf & Hseen).
      assert (s' = s) as -> by congruence.
      exists s, idx. split; [reflexivity |].
      split; [symmetry; by apply cache_count_distinct | exact Hseen].
    + intros Hgt. rewrite (Hmany Hgt) in Hcache. discriminate.
  - split.
    + intros Hle. destruct (Hfew Hle) as (s' & Hall' & _). congruence.
    + intros Hgt. rewrite (Hmany Hgt) in Hcache. congruence.
Qed.

Lemma gpio_device_add_result (s s' : PortCache) (device i : Z) :
  cache_wf s ->
  device <> NULL ->
  gpio_device_add device s = Returned (i, s') ->
  0 <= i < gpio_device_count s' /\
  gpio_devices s' !! Z.to_nat i = Some device.
Proof.
  intros Hwf Hnonnull Hadd.
  pose proof (wf_count s Hwf) as Hcount.
  pose proof (wf_length s Hwf) as Hlen.
  destruct (gpio_device_add_inv s s' device i Hwf Hadd)
    as [(-> & Hi & Hslot) | (-> & Hroom & _ & ->)].
  - split; [| exact Hslot]. split; [lia |].
    destruct (Z_lt_ge_dec i (gpio_device_count s)) as [Hlt | Hge]; [done |].
    exfalso. apply Hnonnull.
    apply (wf_free s Hwf (Z.to_nat i)); [lia | exact Hslot].
  - cbn [gpio_devices gpio_device_count]. split; [lia |].
    apply list_lookup_insert_eq. unfold GPIO_PORT_COUNT in *. lia.
Qed.

Lemma gpio_indices_store_in_range (index device_offset : Z)
    (gpio_indices : list Z) :
  0 <= index < PL_GPIO_COUNT ->
  gpio_indices_store PL_GPIO_COUNT index device_offset gpio_indices
  = <[Z.to_nat index := device_offset]> gpio_indices.
Proof.
  intros Hindex. unfold gpio_indices_store.
  destruct (Z.leb_spec 0 index); [| lia].
  destruct (Z.ltb_spec index PL_GPIO_COUNT); [reflexivity | lia].
Qed.

Lemma input_gpio_init_lines_wired (entries : list (Z * Line.t)) :
  forall (s s' : PortCache) (idx idx' : list Z),
    cache_wf s ->
    input_gpio_init_lines PL_GPIO_COUNT device_get_binding
      gpio_pin_configure entries (s, idx) = Returned (s', idx') ->
    NoDup entries.*1 ->
    Forall (fun entry => 0 <= fst entry < PL_GPIO_COUNT) entries ->
    PL_GPIO_COUNT <= Z.of_nat (length idx) ->
    cache_wf s' /\
    (gpio_device_count s <= gpio_device_count s' /\
     forall (j : nat) (d : Z),
       Z.of_nat j < gpio_device_count s ->
       gpio_devices s !! j = Some d -> gpio_devices s' !! j = Some d) /\
    (forall k : nat, Z.of_nat k ∉ entries.*1 -> idx' !! k = idx !! k) /\
    Forall (line_wired device_get_binding s' idx') entries.
Proof.
  induction entries as [| e rest IH];
    intros s s' idx idx' Hwf Hinit Hnodup Hrange Hroom.
  - injection Hinit as <- <-.
    split; [exact Hwf |]. split; [split; [lia | done] |]. by split.
  - cbn [input_gpio_init_lines] in Hinit.
    rewrite fmap_cons in Hnodup. apply NoDup_cons in Hnodup as [Hfresh Hnodup].
    apply Forall_cons in Hrange as [He Hrange].
    destruct (input_gpio_init_line PL_GPIO_COUNT device_get_binding
                gpio_pin_configure (s, idx) e)
      as [[s1 idx1] | msg] eqn:Hline;
      cbn [mbind outcome_bind] in Hinit; [| discriminate].
    unfold input_gpio_init_line in Hline. cbn [fst snd] in Hline.
    destruct (Z.eqb_spec (device_get_binding (snd e)) NULL) as [| Hbind];
      [discriminate |].
    destruct (negb (gpio_pin_configure (device_get_binding (snd e)) (snd e)
                    =? 0)); [discriminate |].
    destruct (gpio_device_add (device_get_binding (snd e)) s)
      as [[i s2] | msg] eqn:Hadd; [| discriminate].
    cbn [mbind outcome_bind mret outcome_ret fst snd] in Hline.
    rewrite gpio_indices_store_in_range in Hline by exact He.
    injection Hline as <- <-.
    pose proof (gpio_device_add_wf s s2 _ i Hwf Hadd) as Hwf2.
    destruct (gpio_device_add_keeps s s2 _ i Hwf Hadd) as [Hle2 Hkeep2].
    destruct (gpio_device_add_result s s2 _ i Hwf Hbind Hadd) as [Hi Hslot].
    destruct (IH s2 s' (<[Z.to_nat (fst e) := i]> idx) idx' Hwf2 Hinit Hnodup
                Hrange)
      as (Hwf' & [Hle' Hkeep'] & Hother & Hwired);
      [by rewrite length_insert |].
    split; [exact Hwf' |]. split; [| split].
    + split; [lia |]. intros j d Hj Hd. apply Hkeep'; [lia | by apply Hkeep2].
    + intros k Hk. apply not_elem_of_cons in Hk as [Hne Hk].
      rewrite (Hother k Hk). apply list_lookup_insert_ne. lia.
    + constructor; [| exact Hwired].
      exists i. split; [| split].
      * rewrite (Hother (Z.to_nat (fst e)));
          [apply list_lookup_insert_eq; lia |].
        by rewrite Z2Nat.id by lia.
      * lia.
      * apply Hkeep'; [lia | exact Hslot].
Qed.

(** X15: start-up wires every line to its own port.  When
    [input_gpio_init] returns, the indices of [PL_GPIOS()] being
    distinct and inside the [PL_GPIO_COUNT] entries of [gpio_indices],
    the entry of [gpio_indices] for each listed line names a slot below
    [gpio_device_count] that holds the device the line is bound to. *)
Theorem input_gpio_init_wires_lines (PL_GPIOS : list (Z * Line.t))
    (s : PortCache) (gpio_indices : list Z) :
  input_gpio_init PL_GPIOS PL_GPIO_COUNT device_get_binding
    gpio_pin_configure = Returned (s, gpio_indices) ->
  NoDup PL_GPIOS.*1 ->
  Forall (fun entry => 0 <= fst entry < PL_GPIO_COUNT) PL_GPIOS ->
  Forall (line_wired device_get_binding s gpio_indices) PL_GPIOS.
Proof.
  intros Hinit Hnodup Hrange. unfold input_gpio_init in Hinit.
  apply (input_gpio_init_lines_wired PL_GPIOS PortCache_zero s
           (replicate (Z.to_nat PL_GPIO_COUNT) 0) gpio_indices cache_wf_zero
           Hinit Hnodup Hrange).
  rewrite length_replicate. lia.
Qed.

End InitProperties.

Lemma input_gpio_init_fatal_witness :
  exists msg : string,
    input_gpio_init sample_gpios 21 sample_binding_missing sample_configure
    = Panicked msg.
Proof.
  apply (input_gpio_init_fatal 21 sample_binding_missing sample_configure
           sample_gpios).
  apply Exists_exists. exists (18, Line.mode_lock). split.
  - apply (bool_decide_unpack _). vm_compute. exact I.
  - intros [Hbind _]. apply Hbind. reflexivity.
Defined.

Lemma sample_gpios_bind :
  Forall (line_binds sample_binding sample_configure) sample_gpios.
Proof.
  unfold sample_gpios.
  repeat (apply Forall_cons; split; [split; [discriminate | reflexivity] |]).
  apply Forall_nil_2.
Defined.

Lemma input_gpio_init_returns_witness :
  exists (s : PortCache) (gpio_indices : list Z),
    input_gpio_init sample_gpios 21 sample_binding sample_configure
      = Returned (s, gpio_indices) /\
    gpio_device_count s = 3 /\
    forall d : Z,
      cached d s <->
      d ∈ map (fun entry => sample_binding (snd entry)) sample_gpios.
Proof.
  apply (proj1 (input_gpio_init_returns 21 sample_binding sample_configure
                  sample_gpios sample_gpios_bind)).
  vm_compute. lia.
Defined.

Lemma input_gpio_init_wires_lines_witness :
  Forall (line_wired sample_binding (fst sample_wiring) (snd sample_wiring))
    sample_gpios.
Proof.
  apply (input_gpio_init_wires_lines 21 sample_binding sample_configure
           sample_gpios (fst sample_wiring) (snd sample_wiring)).
  - vm_compute. reflexivity.
  - apply (bool_decide_unpack _). vm_compute. exact I.
  - apply (bool_decide_unpack _). vm_compute. exact I.
Defined.

(** ** Raw state reader, continued *)

Lemma land_pow2_testbit (word pin : Z) :
  0 <= pin ->
  negb (Z.land word (2 ^ pin) =? 0) = Z.testbit word pin.
Proof.
  intros Hpin.
  destruct (Z.testbit word pin) eqn:Hbit.
  - apply negb_true_iff, Z.eqb_neq. intros Hzero.
    assert (Hland : Z.testbit (Z.land word (2 ^ pin)) pin = true).
    { rewrite Z.land_spec, Hbit, Z.pow2_bits_true by lia. reflexivity. }
    rewrite Hzero, Z.bits_0 in Hland. discriminate.
  - apply negb_false_iff, Z.eqb_eq. apply Z.bits_inj'. intros k Hk.
    rewrite Z.land_spec, Z.bits_0, Z.pow2_bits_eqb by lia.
    destruct (Z.eqb_spec pin k) as [<- | Hne].
    + by rewrite Hbit.
    + apply andb_false_r.
Qed.

Lemma gpio_line_bit (word pin : Z) :
  0 <= pin < 32 ->
  negb (Z.land word (Z.shiftl 1 pin mod 2 ^ 32) =? 0) = Z.testbit word pin.
Proof.
  intros Hpin. rewrite Z.shiftl_1_l, Z.mod_small.
  - apply land_pow2_testbit. lia.
  - split; [apply Z.pow_nonneg; lia | apply Z.pow_lt_mono_r; lia].
Qed.

Lemma gpio_active_low_bit (flags : Z) :
  negb (Z.land flags GPIO_ACTIVE_LOW =? 0) = Z.testbit flags 0.
Proof. apply (land_pow2_testbit flags 0). lia. Qed.

Section ReaderProperties.

Variable PL_GPIO_PIN : Line.t -> Z.
Variable PL_GPIO_FLAGS : Line.t -> Z.
Variable gpio_port_get_raw : Z -> Z * Z.

Lemma gpio_read_ports_ok (s : PortCache) (n : nat) :
  forall (i : Z) (port_values : list Z),
    0 <= i ->
    (forall j : nat,
       i <= Z.of_nat j < i + Z.of_nat n ->
       fst (gpio_port_get_raw (default NULL (gpio_devices s !! j))) = 0) ->
    exists port_values' : list Z,
      gpio_read_ports gpio_port_get_raw s i n port_values
        = Returned port_values' /\
      length port_values' = length port_values /\
      (forall j : nat,
         i <= Z.of_nat j < i + Z.of_nat n ->
         (j < length port_values)%nat ->
         port_values' !! j
           = Some (snd (gpio_port_get_raw
                          (default NULL (gpio_devices s !! j))))) /\
      (forall j : nat,
         ~ i <= Z.of_nat j < i + Z.of_nat n ->
         port_values' !! j = port_values !! j).
Proof.
  induction n as [| n IH]; intros i port_values Hi Hok.
  - exists port_values. split; [reflexivity |]. split; [reflexivity |].
    split; [intros j Hj; lia | done].
  - cbn [gpio_read_ports].
    pose proof (Hok (Z.to_nat i) ltac:(lia)) as Hhere.
    rewrite Hhere. cbn [Z.eqb negb].
    destruct (IH (i + 1)
                (<[Z.to_nat i :=
                     snd (gpio_port_get_raw
                            (default NULL (gpio_devices s !! Z.to_nat i)))]>
                   port_values) ltac:(lia))
      as (pv' & Hread & Hlen & Hin & Hout).
    { intros j Hj. apply Hok. lia. }
    exists pv'. split; [exact Hread |].
    rewrite length_insert in Hlen, Hin. split; [exact Hlen |]. split.
    + intros j Hj Hroom.
      destruct (decide (Z.of_nat j = i)) as [Heq | Hne].
      * rewrite Hout by lia. subst i. rewrite Nat2Z.id.
        by apply list_lookup_insert_eq.
      * apply Hin; [lia | exact Hroom].
    + intros j Hj. rewrite Hout by lia.
      apply list_lookup_insert_ne. lia.
Qed.

Lemma input_read_line_get (gpio_indices port_values : list Z)
    (out : RawInputState) (entry : Z * Line.t) (name : Line.t) :
  PerLine.get name
    (input_read_line PL_GPIO_PIN PL_GPIO_FLAGS gpio_indices port_values
       out entry)
  = if decide (name = snd entry)
    then PerLine.get (snd entry)
           (input_read_line PL_GPIO_PIN PL_GPIO_FLAGS gpio_indices
              port_values RawInputState_zero entry)
    else PerLine.get name out.
Proof.
  unfold input_read_line.
  destruct (negb (Z.land (PL_GPIO_FLAGS (snd entry)) GPIO_ACTIVE_LOW =? 0));
    case_decide as Hname;
    first [subst name; by rewrite !PerLine_get_set_eq
          | by rewrite PerLine_get_set_ne].
Qed.

Lemma input_read_lines_get (gpio_indices port_values : list Z)
    (entries : list (Z * Line.t)) :
  NoDup entries.*2 ->
  forall out : RawInputState,
    (forall name : Line.t,
       name ∉ entries.*2 ->
       PerLine.get name
         (fold_left (input_read_line PL_GPIO_PIN PL_GPIO_FLAGS gpio_indices
                       port_values) entries out)
       = PerLine.get name out) /\
    (forall entry : Z * Line.t,
       entry ∈ entries ->
       PerLine.get (snd entry)
         (fold_left (input_read_line PL_GPIO_PIN PL_GPIO_FLAGS gpio_indices
                       port_values) entries out)
       = PerLine.get (snd entry)
           (input_read_line PL_GPIO_PIN PL_GPIO_FLAGS gpio_indices
              port_values RawInputState_zero entry)).
Proof.
  induction entries as [| e rest IH]; intros Hnodup out.
  - split; [done | intros entry Hin; by apply not_elem_of_nil in Hin].
  - rewrite fmap_cons in Hnodup. apply NoDup_cons in Hnodup as [Hfresh Hnodup].
    cbn [fold_left].
    destruct (IH Hnodup
                (input_read_line PL_GPIO_PIN PL_GPIO_FLAGS gpio_indices
                   port_values out e)) as [IHout IHin].
    split.
    + intros name Hname. rewrite fmap_cons in Hname.
      apply not_elem_of_cons in Hname as [Hne Hname].
      rewrite (IHout name Hname), input_read_line_get.
      by rewrite decide_False.
    + intros entry Hin. apply elem_of_cons in Hin as [-> | Hin].
      * rewrite (IHout (snd e) Hfresh), input_read_line_get.
        by rewrite decide_True.
      * by apply IHin.
Qed.

(** X16: what a fault-free physical read returns.  With no queued
    override and every cached port reading without a fault,
    [input_get_raw_state] returns; the members of the lines that are
    not listed are left as the caller had them; and the member of a
    listed line wired to a cached port is the bit of that port's word at
    the line's pin, inverted when the line is active low. *)
Theorem input_get_raw_state_reads_lines (PL_GPIOS : list (Z * Line.t))
    (s : PortCache) (gpio_indices port_values : list Z)
    (out : RawInputState) :
  NoDup PL_GPIOS.*2 ->
  0 <= gpio_device_count s <= Z.of_nat (length port_values) ->
  (forall j : nat,
     Z.of_nat j < gpio_device_count s ->
     fst (gpio_port_get_raw (default NULL (gpio_devices s !! j))) = 0) ->
  exists out' : RawInputState,
    input_get_raw_state PL_GPIOS PL_GPIO_PIN PL_GPIO_FLAGS gpio_port_get_raw
      None s gpio_indices port_values out = Returned out' /\
    (forall name : Line.t,
       name ∉ PL_GPIOS.*2 -> PerLine.get name out' = PerLine.get name out) /\
    (forall (entry : Z * Line.t) (device_index : Z),
       entry ∈ PL_GPIOS ->
       gpio_indices !! Z.to_nat (fst entry) = Some device_index ->
       0 <= device_index < gpio_device_count s ->
       0 <= PL_GPIO_PIN (snd entry) < 32 ->
       PerLine.get (snd entry) out' =
         xorb (Z.testbit
                 (snd (gpio_port_get_raw
                         (default NULL
                            (gpio_devices s !! Z.to_nat device_index))))
                 (PL_GPIO_PIN (snd entry)))
              (Z.testbit (PL_GPIO_FLAGS (snd entry)) 0)).
Proof.
  intros Hnodup Hroom Hok. unfold input_get_raw_state.
  destruct (gpio_read_ports_ok s (Z.to_nat (gpio_device_count s)) 0
              port_values ltac:(lia))
    as (pv' & Hread & Hlen & Hin & _).
  { intros j Hj. apply Hok. lia. }
  rewrite Hread. cbn [mbind outcome_bind mret outcome_ret].
  eexists. split; [reflexivity |].
  destruct (input_read_lines_get gpio_indices pv' PL_GPIOS Hnodup out)
    as [Hunlisted Hlisted].
  split; [exact Hunlisted |].
  intros entry device_index Hentry Hindex Hdevice Hpin.
  rewrite (Hlisted entry Hentry). unfold input_read_line.
  rewrite Hindex. cbn [default from_option id].
  rewrite (Hin (Z.to_nat device_index)) by lia. cbn [default from_option id].
  rewrite gpio_line_bit by exact Hpin.
  rewrite gpio_active_low_bit.
  destruct (Z.testbit (PL_GPIO_FLAGS (snd entry)) 0);
    rewrite PerLine_get_set_eq.
  - by rewrite xorb_true_r.
  - by rewrite xorb_false_r.
Qed.

End ReaderProperties.

Lemma input_get_raw_state_reads_lines_witness :
  exists out' : RawInputState,
    input_get_raw_state sample_gpios sample_pin sample_flags
      sample_port_read None (fst sample_wiring) (snd sample_wiring)
      [0; 0; 0; 0] RawInputState_zero = Returned out' /\
    PerLine.mode_dpad out' = false /\
    PerLine.stick_up out' = true /\
    PerLine.stick_down out' = false.
Proof.
  destruct (input_get_raw_state_reads_lines sample_pin sample_flags
              sample_port_read sample_gpios (fst sample_wiring)
              (snd sample_wiring) [0; 0; 0; 0] RawInputState_zero)
    as (out' & Hread & Hunlisted & Hlisted).
  - exact sample_gpios_NoDup.
  - simpl. lia.
  - intros j _. reflexivity.
  - exists out'. split; [exact Hread |]. split; [| split].
    + apply (Hunlisted Line.mode_dpad).
      apply (bool_decide_unpack _). vm_compute. exact I.
    + apply (Hlisted (14, Line.stick_up) 1).
      * apply (bool_decide_unpack _). vm_compute. exact I.
      * reflexivity.
      * simpl. lia.
      * simpl. lia.
    + apply (Hlisted (15, Line.stick_down) 1).
      * apply (bool_decide_unpack _). vm_compute. exact I.
      * reflexivity.
      * simpl. lia.
      * simpl. lia.
Defined.

(** ** Start-up and read together *)

(** X17: the cache is transparent.  After a start-up that returned, on a
    board whose lines have distinct names, distinct indices inside the
    [PL_GPIO_COUNT] entries of [gpio_indices] and pins below 32, with
    no queued override and the port of every listed line reading
    without a fault, [input_get_raw_state]
    returns, and each listed line reads as the bit at its pin in the
    word of the very device it is bound to, inverted when the line is
    active low. *)
Theorem input_read_after_init (PL_GPIOS : list (Z * Line.t))
    (PL_GPIO_COUNT : Z) (PL_GPIO_PIN PL_GPIO_FLAGS : Line.t -> Z)
    (device_get_binding : Line.t -> Z)
    (gpio_pin_configure : Z -> Line.t -> Z)
    (gpio_port_get_raw : Z -> Z * Z)
    (s : PortCache) (gpio_indices port_values : list Z)
    (out : RawInputState) :
  input_gpio_init PL_GPIOS PL_GPIO_COUNT device_get_binding
    gpio_pin_configure = Returned (s, gpio_indices) ->
  NoDup PL_GPIOS.*1 ->
  NoDup PL_GPIOS.*2 ->
  Forall (fun entry => 0 <= fst entry < PL_GPIO_COUNT) PL_GPIOS ->
  Forall (fun entry => 0 <= PL_GPIO_PIN (snd entry) < 32) PL_GPIOS ->
  Forall (fun entry =>
            fst (gpio_port_get_raw (device_get_binding (snd entry))) = 0)
    PL_GPIOS ->
  length port_values = Z.to_nat GPIO_PORT_COUNT ->
  exists out' : RawInputState,
    input_get_raw_state PL_GPIOS PL_GPIO_PIN PL_GPIO_FLAGS gpio_port_get_raw
      None s gpio_indices port_values out = Returned out' /\
    forall entry : Z * Line.t,
      entry ∈ PL_GPIOS ->
      PerLine.get (snd entry) out' =
        xorb (Z.testbit
                (snd (gpio_port_get_raw (device_get_binding (snd entry))))
                (PL_GPIO_PIN (snd entry)))
             (Z.testbit (PL_GPIO_FLAGS (snd entry)) 0).
Proof.
  intros Hinit Hindices Hnames Hrange Hpins Hreads Hlen.
  pose proof (input_gpio_init_wf PL_GPIOS PL_GPIO_COUNT device_get_binding
                gpio_pin_configure s gpio_indices Hinit) as Hwf.
  pose proof (wf_count s Hwf) as Hcount.
  pose proof (wf_length s Hwf) as Hslots.
  assert (Hdec : forall entry,
             Decision (line_binds device_get_binding gpio_pin_configure entry)).
  { intros entry. unfold line_binds. apply _. }
  assert (Hbinds : Forall (line_binds device_get_binding gpio_pin_configure)
                     PL_GPIOS).
  { destruct (decide (Forall (line_binds device_get_binding
                                gpio_pin_configure) PL_GPIOS))
      as [Hall | Hsome]; [exact Hall |].
    apply not_Forall_Exists in Hsome; [| exact Hdec].
    destruct (input_gpio_init_lines_fatal PL_GPIO_COUNT device_get_binding
                gpio_pin_configure PL_GPIOS Hsome
                (PortCache_zero, replicate (Z.to_nat PL_GPIO_COUNT) 0))
      as [msg Hmsg].
    unfold input_gpio_init in Hinit. congruence. }
  assert (Hseen : forall d : Z,
             cached d s ->
             exists entry, entry ∈ PL_GPIOS /\
                           d = device_get_binding (snd entry)).
  { pose proof (input_gpio_init_lines_cache PL_GPIO_COUNT device_get_binding
                  gpio_pin_configure PL_GPIOS Hbinds
                  (PortCache_zero, replicate (Z.to_nat PL_GPIO_COUNT) 0))
      as Hall.
    unfold input_gpio_init in Hinit. rewrite Hinit in Hall.
    cbn [fst snd] in Hall.
    assert (Hnonnull : Forall (fun d => d <> NULL)
                         (map (fun entry => device_get_binding (snd entry))
                            PL_GPIOS)).
    { apply Forall_map. eapply Forall_impl; [exact Hbinds |].
      by intros e [Hb _]. }
    destruct (gpio_device_add_all_capacity_gen _ PortCache_zero []
                cache_wf_zero cached_zero Hnonnull) as [Hfew Hmany].
    rewrite app_nil_l in *.
    destruct (le_gt_dec
                (length (remove_dups
                           (map (fun entry => device_get_binding (snd entry))
                              PL_GPIOS))) 4) as [Hle | Hgt].
    - destruct (Hfew Hle) as (s' & Hall' & _ & Hmem).
      assert (s' = s) as -> by congruence.
      intros d Hd. apply Hmem, list_elem_of_In, in_map_iff in Hd.
      destruct Hd as (entry & <- & Hentry).
      exists entry. split; [by apply list_elem_of_In | reflexivity].
    - rewrite (Hmany Hgt) in Hall. discriminate. }
  assert (Hok : forall j : nat,
             0 <= Z.of_nat j < 0 + Z.of_nat (Z.to_nat (gpio_device_count s)) ->
             fst (gpio_port_get_raw (default NULL (gpio_devices s !! j))) = 0).
  { intros j Hj.
    destruct (lookup_lt_is_Some_2 (gpio_devices s) j) as [d Hd];
      [unfold GPIO_PORT_COUNT in *; lia |].
    rewrite Hd. cbn [default from_option id].
    destruct (Hseen d) as (entry & Hentry & ->);
      [exists j; split; [lia | exact Hd] |].
    rewrite Forall_forall in Hreads. by apply Hreads. }
  unfold input_get_raw_state.
  destruct (gpio_read_ports_ok gpio_port_get_raw s
              (Z.to_nat (gpio_device_count s)) 0 port_values ltac:(lia) Hok)
    as (pv' & Hread & _ & Hin & _).
  rewrite Hread. cbn [mbind outcome_bind mret outcome_ret].
  eexists. split; [reflexivity |].
  intros entry Hentry.
  destruct (input_read_lines_get PL_GPIO_PIN PL_GPIO_FLAGS gpio_indices pv'
              PL_GPIOS Hnames out) as [_ Hlisted].
  rewrite (Hlisted entry Hentry).
  assert (Hwired : Forall (line_wired device_get_binding s gpio_indices)
                     PL_GPIOS).
  { unfold input_gpio_init in Hinit.
    apply (input_gpio_init_lines_wired PL_GPIO_COUNT device_get_binding
             gpio_pin_configure PL_GPIOS PortCache_zero s
             (replicate (Z.to_nat PL_GPIO_COUNT) 0) gpio_indices
             cache_wf_zero Hinit Hindices Hrange).
    rewrite length_replicate. lia. }
  rewrite Forall_forall in Hwired.
  destruct (Hwired entry Hentry) as (di & Hindex & Hdi & Hslot).
  rewrite Forall_forall in Hpins. specialize (Hpins entry Hentry).
  unfold input_read_line. rewrite Hindex. cbn [default from_option id].
  rewrite (Hin (Z.to_nat di)) by (unfold GPIO_PORT_COUNT in *; lia).
  cbn [default from_option id]. rewrite Hslot. cbn [default from_option id].
  rewrite gpio_line_bit by exact Hpins.
  rewrite gpio_active_low_bit.
  destruct (Z.testbit (PL_GPIO_FLAGS (snd entry)) 0);
    rewrite PerLine_get_set_eq.
  - by rewrite xorb_true_r.
  - by rewrite xorb_false_r.
Qed.

Lemma input_read_after_init_witness :
  exists out' : RawInputState,
    input_get_raw_state sample_gpios sample_pin sample_flags
      sample_port_read None (fst sample_wiring) (snd sample_wiring)
      [7; 7; 7; 7] RawInputState_zero = Returned out' /\
    PerLine.stick_up out' = true /\
    PerLine.button_home out' = false.
Proof.
  destruct (input_read_after_init sample_gpios 21 sample_pin sample_flags
              sample_binding sample_configure sample_port_read
              (fst sample_wiring) (snd sample_wiring) [7; 7; 7; 7]
              RawInputState_zero) as (out' & Hread & Hlines).
  - vm_compute. reflexivity.
  - apply (bool_decide_unpack _). vm_compute. exact I.
  - exact sample_gpios_NoDup.
  - apply (bool_decide_unpack _). vm_compute. exact I.
  - apply (bool_decide_unpack _). vm_compute. exact I.
  - apply (bool_decide_unpack _). vm_compute. exact I.
  - reflexivity.
  - exists out'. split; [exact Hread |]. split.
    + apply (Hlines (14, Line.stick_up)).
      apply (bool_decide_unpack _). vm_compute. exact I.
    + apply (Hlines (13, Line.button_home)).
      apply (bool_decide_unpack _). vm_compute. exact I.
Defined.
